(** * oemof: custom solph components and result plotting

    A shallow embedding of [oemof/solph/custom.py] (the [DieselGenerator]
    component, its constraint block and the grouping function) and of the
    column handling of [oemof/outputlib/plot.py] ([ViewPlot]).

    Conventions of the embedding:
    - a node object is referred to by its label (oemof hashes nodes by their
      label), so [node] is [string] and [n.label] is [n] itself;
    - Python floats are exact rationals ([Q]); no rounding is modelled;
    - a Python [dict] whose order is observed is an association list in
      insertion order; a [dict] used as a plain map is a [gmap];
    - code that may raise returns a [result]. *)

From Stdlib Require Import QArith Lqa List.
From stdpp Require Import gmap strings list fin_maps sorting.

Local Open Scope string_scope.

(** ** Python exceptions and fallible results *)

Inductive exn : Type :=
  | KeyError
  | IndexError
  | AttributeError
  | TypeError
  | ZeroDivisionError
  | ValueError (args : list string).

Inductive result (A : Type) : Type :=
  | Ok (a : A)
  | Raise (e : exn).
Arguments Ok {A} a.
Arguments Raise {A} e.

Definition bind {A B : Type} (r : result A) (k : A -> result B) : result B :=
  match r with
  | Ok a => k a
  | Raise e => Raise e
  end.

Notation "'try!' x ':=' r 'in' k" := (bind r (fun x => k))
  (at level 10, x pattern, r at level 100, k at level 200).

Definition is_Ok {A : Type} (r : result A) : Prop :=
  match r with Ok _ => True | Raise _ => False end.

(** [d[k]] on an optional lookup: a missing key raises [KeyError]. *)
Definition getitem {A : Type} (o : option A) : result A :=
  match o with
  | Some a => Ok a
  | None => Raise KeyError
  end.

(** A node object, referred to by its label. *)
Abbreviation node := string.

(** State-passing code that may raise: the state reached is kept when an
    exception is raised, as the mutations made before it stay visible. *)
Definition M (S A : Type) : Type := S -> S * result A.

Definition ret {S A : Type} (a : A) : M S A := fun s => (s, Ok a).

Definition raise {S A : Type} (e : exn) : M S A := fun s => (s, Raise e).

Definition mbind' {S A B : Type} (c : M S A) (k : A -> M S B) : M S B :=
  fun s =>
    match c s with
    | (s', Ok a) => k a s'
    | (s', Raise e) => (s', Raise e)
    end.

Notation "'do!' x ':=' c 'in' k" := (mbind' c (fun x => k))
  (at level 10, x pattern, c at level 100, k at level 200).

Definition modify {S : Type} (f : S -> S) : M S unit := fun s => (f s, Ok tt).

Definition lift {S A : Type} (r : result A) : M S A := fun s => (s, r).

(** [for x in l: body(x)], stopping at the first exception. *)
Fixpoint for_ {S A : Type} (l : list A) (body : A -> M S unit) : M S unit :=
  match l with
  | [] => ret tt
  | x :: l' => do! _ := body x in for_ l' body
  end.

(** A Python [dict] in insertion order. *)
Definition dict (K V : Type) : Type := list (K * V).

Definition keys {K V : Type} (d : dict K V) : list K := map fst d.

Definition values {K V : Type} (d : dict K V) : list V := map snd d.

(** [sorted(l)]: a stable insertion sort for the order [le]. *)
Fixpoint insert_sorted {A : Type} (le : A -> A -> bool) (x : A) (l : list A) : list A :=
  match l with
  | [] => [x]
  | y :: l' => if le x y then x :: y :: l' else y :: insert_sorted le x l'
  end.

Definition sorted {A : Type} (le : A -> A -> bool) (l : list A) : list A :=
  fold_right (insert_sorted le) [] l.

(** ** The class hierarchy seen by [isinstance] *)

Module Grouping.

(** The classes a node handed to the grouping function can belong to: the
    classes of [oemof.solph] that [custom.py] builds on, the custom component
    itself, and classes a user derives from any of them. *)
Inductive cls : Type :=
  | Node
  | Bus
  | Sink
  | Source
  | Transformer
  | DieselGenerator
  | Derived (name : string) (base : cls).

(** [issubclass(c, DieselGenerator)]: walk up the base classes. *)
Fixpoint subclass_of_DieselGenerator (c : cls) : bool :=
  match c with
  | DieselGenerator => true
  | Derived _ b => subclass_of_DieselGenerator b
  | _ => false
  end.

(** The method resolution order of a class: the class and its bases. *)
Fixpoint mro (c : cls) : list cls :=
  match c with
  | Node => [Node]
  | Bus => [Bus; Node]
  | Sink => [Sink; Node]
  | Source => [Source; Node]
  | Transformer => [Transformer; Node]
  | DieselGenerator => [DieselGenerator; Transformer; Node]
  | Derived n b => Derived n b :: mro b
  end.

(** What the grouping function can return. *)
Inductive block_class : Type :=
  | DieselGeneratorBlock.

(** [custom_component_grouping(node)]; falling off the end of the function
    returns [None]. *)
Definition custom_component_grouping (class_of_node : cls) : option block_class :=
  if subclass_of_DieselGenerator class_of_node
  then Some DieselGeneratorBlock
  else None.

(** [isinstance(node, DieselGenerator)] as Python defines it: the class
    [DieselGenerator] occurs in the method resolution order of the node's
    class. *)
Definition isinstance_DieselGenerator (class_of_node : cls) : Prop :=
  In DieselGenerator (mro class_of_node).

End Grouping.


(** ** [oemof/solph/custom.py]: the component *)

Module Custom.

(** An [oemof.solph.Flow], reduced to the attribute the block reads. *)
Record Flow : Type := { nominal_value : option Q }.

(** The edges of the energy system as the [outputs] mappings of its nodes:
    [w !! n] is [n.outputs], a mapping from target node to flow.  It is shared
    by all nodes, so an update through one node is seen through the others. *)
Abbreviation World := (gmap node (gmap node Flow)).

Definition outputs (w : World) (n : node) : gmap node Flow :=
  default ∅ (w !! n).

(** [n.outputs.update(d)]: the items of [d] are stored in order. *)
Definition outputs_update (n : node) (d : dict node Flow) (w : World) : World :=
  <[n := foldl (fun acc kv => <[fst kv := snd kv]> acc) (outputs w n) d]> w.

(** The keyword arguments [DieselGenerator.__init__] looks at. *)
Record kwargs : Type := {
  kw_fuel_input : option (dict node Flow);
  kw_electrical_output : option (dict node Flow)
}.

(** The attributes [DieselGenerator.__init__] sets on the new object. *)
Record DieselGenerator : Type := {
  fuel_input : dict node Flow;
  electrical_output : dict node Flow;
  fuel_curve : dict Q Q;
  fuel_coeff_a : Q;
  fuel_coeff_b : Q
}.

(** [float(k)] of a number. *)
Definition py_float (k : Q) : Q := k.

(** [int(v)] of a number: truncation towards zero. *)
Definition py_int (v : Q) : Z := Z.quot (Qnum v) (Zpos (Qden v)).

Section Init.

(** [Transformer.__init__] of [oemof.solph], called through [super()]: it is
    not part of [custom.py]; whatever it does to the edges happens before the
    body of [DieselGenerator.__init__]. *)
Variable Transformer__init__ : node -> kwargs -> M World unit.

(** [numpy.polyfit(x, y, 1)]: the coefficients [(z[0], z[1])] of the fitted
    line [z[0] * x + z[1]], or an exception. *)
Variable polyfit : list Q -> list Q -> result (Q * Q).

(** [list(d)[0]]. *)
Definition first {A : Type} (l : list A) : result A :=
  match l with
  | x :: _ => Ok x
  | [] => Raise IndexError
  end.

(** [DieselGenerator.__init__(self, fuel_curve, **kwargs)]. *)
Definition __init__ (self : node) (fuel_curve0 : dict Q Q) (kw : kwargs)
  : M World DieselGenerator :=
  do! _ := Transformer__init__ self kw in
  let self_fuel_input := kw_fuel_input kw in
  let self_electrical_output := kw_electrical_output kw in
  let self_fuel_curve := map (fun kv => (fst kv, snd kv)) fuel_curve0 in
  match self_fuel_input with
  | None => raise AttributeError
  | Some fi =>
    do! fuel_bus := lift (first (keys fi)) in
    do! fuel_flow := lift (first (values fi)) in
    do! _ := modify (outputs_update fuel_bus [(self, fuel_flow)]) in
    match kw_electrical_output kw with
    | None => raise TypeError
    | Some eo =>
      do! _ := modify (outputs_update self eo) in
      let x := sorted Qle_bool (map py_float (keys self_fuel_curve)) in
      let y := sorted Z.leb (map py_int (values self_fuel_curve)) in
      do! z := lift (polyfit x (map inject_Z y)) in
      ret {| fuel_input := fi;
             electrical_output := eo;
             fuel_curve := self_fuel_curve;
             fuel_coeff_a := fst z;
             fuel_coeff_b := snd z |}
    end
  end.

End Init.

(** *** Least squares, the meaning of a degree-1 fit *)

(** The sum of squared residuals of the line [a * x + b] on the points. *)
Fixpoint sse (pts : list (Q * Q)) (a b : Q) : Q :=
  match pts with
  | [] => 0%Q
  | (x, y) :: pts' => ((a * x + b - y) * (a * x + b - y) + sse pts' a b)%Q
  end.

(** [(a, b)] are slope and intercept of a least-squares line of the points. *)
Definition least_squares_fit (pts : list (Q * Q)) (a b : Q) : Prop :=
  forall a' b' : Q, (sse pts a b <= sse pts a' b')%Q.

Definition Qsum (l : list Q) : Q := fold_right Qplus 0%Q l.

(** A fit routine to put in the place of [polyfit]: the normal equations of
    the degree-1 fit, solved exactly.  It gives up with [ValueError] on a
    singular system (no points, or a single abscissa), where the
    least-squares line is not unique. *)
Definition normal_equations_fit (xs ys : list Q) : result (Q * Q) :=
  let pts := combine xs ys in
  let n := inject_Z (Z.of_nat (length pts)) in
  let sx := Qsum (map fst pts) in
  let sy := Qsum (map snd pts) in
  let sxx := Qsum (map (fun p => fst p * fst p)%Q pts) in
  let sxy := Qsum (map (fun p => fst p * snd p)%Q pts) in
  let d := (n * sxx - sx * sx)%Q in
  if Qeq_bool d 0 then Raise (ValueError ["singular normal equations"])
  else
    let a := ((n * sxy - sx * sy) / d)%Q in
    let b := ((sy - a * sx) / n)%Q in
    Ok (Qred a, Qred b).

(** ** [oemof/solph/custom.py]: the constraint block *)

(** The decision variables of the enclosing model that the block refers to:
    the continuous [m.flow[source, target, t]] and the binary
    [m.NonConvexFlow.status[source, target, t]]. *)
Inductive var : Type :=
  | flow_var (source target : node) (t : nat)
  | status_var (source target : node) (t : nat).

(** Pyomo expressions, as far as the rule builds them. *)
Inductive expr : Type :=
  | EVar (v : var)
  | EConst (c : Q)
  | ESub (e1 e2 : expr)
  | EMul (e1 e2 : expr)
  | EDiv (e1 e2 : expr).

(** [lhs == rhs]. *)
Inductive constraint : Type :=
  | CEq (lhs rhs : expr).

Record NonConvexFlowBlock : Type := {
  status : gset (node * node * nat)
}.

(** The enclosing model [m], as far as the block reads it: the time steps,
    the index sets of its variables, and the flow objects of its edges. *)
Record Model : Type := {
  TIMESTEPS : list nat;
  flow : gset (node * node * nat);
  NonConvexFlow : option NonConvexFlowBlock;
  flows : gmap (node * node) Flow
}.

(** [v[source, target, t]] on an indexed variable. *)
Definition var_getitem (index : gset (node * node * nat))
    (mk : node -> node -> nat -> var) (source target : node) (t : nat) : result expr :=
  if decide ((source, target, t) ∈ index)
  then Ok (EVar (mk source target t))
  else Raise KeyError.

(** [m.NonConvexFlow]. *)
Definition getattr_NonConvexFlow (m : Model) : result NonConvexFlowBlock :=
  match NonConvexFlow m with
  | Some b => Ok b
  | None => Raise AttributeError
  end.

(** [e * c] for an attribute [c] that is a number or [None]. *)
Definition expr_mul (e : expr) (c : option Q) : result expr :=
  match c with
  | Some c => Ok (EMul e (EConst c))
  | None => Raise TypeError
  end.

(** [e / c] for a number [c]. *)
Definition expr_div (e : expr) (c : Q) : result expr :=
  if Qeq_bool c 0 then Raise ZeroDivisionError else Ok (EDiv e (EConst c)).

(** The index of a constraint of the block: [(n, i, o, t)]. *)
Abbreviation index := (node * node * node * nat)%type.

Inductive BuildAction : Type :=
  | BuildAction_input_output_relation_rule.

(** The components [_create] attaches to the block. *)
Record Block : Type := {
  relation : option (gmap index constraint);
  relation_build : option BuildAction
}.

Definition set_relation (r : option (gmap index constraint)) (b : Block) : Block :=
  {| relation := r; relation_build := relation_build b |}.

Definition set_relation_build (a : option BuildAction) (b : Block) : Block :=
  {| relation := relation b; relation_build := a |}.

(** [block.relation.add(idx, c)]: the constraint is stored under the index
    it is given, replacing one stored there before. *)
Definition relation_add (idx : index) (c : constraint) : M Block unit :=
  fun b =>
    match relation b with
    | Some r => (set_relation (Some (<[idx := c]> r)) b, Ok tt)
    | None => (b, Raise AttributeError)
    end.

Section Create.

(** The attributes of the generator objects the group refers to. *)
Variable obj : node -> DieselGenerator.

(** The body of the [try]: both sides of the relation of [(n, i, o, t)]. *)
Definition relation_sides (m : Model) (n i o : node) (t : nat) : result (expr * expr) :=
  try! flow_in := var_getitem (flow m) flow_var i n t in
  try! nonconvex := getattr_NonConvexFlow m in
  try! st := var_getitem (status nonconvex) status_var n o t in
  let diff := ESub flow_in (EMul (EConst (fuel_coeff_b (obj n))) st) in
  try! fl := getitem (flows m !! (n, o)) in
  try! scaled := expr_mul diff (nominal_value fl) in
  try! lhs := expr_div scaled (fuel_coeff_a (obj n)) in
  try! rhs := var_getitem (flow m) flow_var n o t in
  Ok (lhs, rhs).

(** The arguments of the [ValueError] raised by the [except] clause. *)
Definition creation_error (n o : node) : exn :=
  ValueError ["Error in constraint creation";
              "source: " ++ n ++ ", target: " ++ o].

(** [{n: [k for k in attr(n).keys()] for n in group}]. *)
Definition keys_by_node (attr : DieselGenerator -> dict node Flow) (group : list node)
  : gmap node (list node) :=
  foldl (fun acc n => <[n := keys (attr (obj n))]> acc) ∅ group.

(** [_input_output_relation_rule(block)]. *)
Definition _input_output_relation_rule (m : Model) (group : list node)
    (in_flows out_flows : gmap node (list node)) : M Block unit :=
  for_ group (fun n =>
    for_ (TIMESTEPS m) (fun t =>
      do! ins := lift (getitem (in_flows !! n)) in
      for_ ins (fun i =>
        do! outs := lift (getitem (out_flows !! n)) in
        for_ outs (fun o =>
          match relation_sides m n i o t with
          | Ok (lhs, rhs) => relation_add (n, i, o, t) (CEq lhs rhs)
          | Raise _ => raise (creation_error n o)
          end)))).

(** [DieselGeneratorBlock._create(self, group)] on a block whose parent is
    the model [m].  The block is part of a constructed model, so the build
    action runs its rule as soon as it is attached. *)
Definition _create (m : Model) (group : option (list node)) : M Block unit :=
  match group with
  | None => ret tt
  | Some group =>
    let in_flows := keys_by_node fuel_input group in
    let out_flows := keys_by_node electrical_output group in
    do! _ := modify (set_relation (Some ∅)) in
    do! _ := modify (set_relation_build (Some BuildAction_input_output_relation_rule)) in
    _input_output_relation_rule m group in_flows out_flows
  end.

End Create.

(** *** What a constraint states *)

(** The value of an expression under an assignment of the variables. *)
Fixpoint eval (rho : var -> Q) (e : expr) : Q :=
  match e with
  | EVar v => rho v
  | EConst c => c
  | ESub e1 e2 => (eval rho e1 - eval rho e2)%Q
  | EMul e1 e2 => (eval rho e1 * eval rho e2)%Q
  | EDiv e1 e2 => (eval rho e1 / eval rho e2)%Q
  end.

Definition holds (rho : var -> Q) (c : constraint) : Prop :=
  match c with
  | CEq lhs rhs => (eval rho lhs == eval rho rhs)%Q
  end.

(** An expression without variables. *)
Fixpoint constant (e : expr) : bool :=
  match e with
  | EVar _ => false
  | EConst _ => true
  | ESub e1 e2 | EMul e1 e2 | EDiv e1 e2 => constant e1 && constant e2
  end.

(** An expression of degree at most one in the variables: no product of two
    variables and no variable in a divisor. *)
Fixpoint linear (e : expr) : bool :=
  match e with
  | EVar _ | EConst _ => true
  | ESub e1 e2 => linear e1 && linear e2
  | EMul e1 e2 => (constant e1 && linear e2) || (linear e1 && constant e2)
  | EDiv e1 e2 => linear e1 && constant e2
  end.

Definition linear_constraint (c : constraint) : bool :=
  match c with
  | CEq lhs rhs => linear lhs && linear rhs
  end.

(** The tuples [(n, i, o, t)] the rule visits. *)
Definition in_domain (obj : node -> DieselGenerator) (m : Model)
    (group : list node) (idx : index) : Prop :=
  let '(n, i, o, t) := idx in
  In n group /\ In i (keys (fuel_input (obj n))) /\
  In o (keys (electrical_output (obj n))) /\ In t (TIMESTEPS m).

(** The tuples in the order in which the rule visits them. *)
Definition visit_order (obj : node -> DieselGenerator) (m : Model)
    (group : list node) : list index :=
  n ← group; t ← TIMESTEPS m; i ← keys (fuel_input (obj n));
  o ← keys (electrical_output (obj n)); [(n, i, o, t)].

(** One pass of the innermost loop body, on a visited tuple. *)
Definition rule_body (obj : node -> DieselGenerator) (m : Model)
    (idx : index) : M Block unit :=
  let '(n, i, o, t) := idx in
  match relation_sides obj m n i o t with
  | Ok (lhs, rhs) => relation_add (n, i, o, t) (CEq lhs rhs)
  | Raise _ => raise (creation_error n o)
  end.

(** The constraint the rule builds for a tuple, if its sides evaluate. *)
Definition constraint_at (obj : node -> DieselGenerator) (m : Model)
    (idx : index) : option constraint :=
  let '(n, i, o, t) := idx in
  match relation_sides obj m n i o t with
  | Ok (lhs, rhs) => Some (CEq lhs rhs)
  | Raise _ => None
  end.

End Custom.

(** ** [oemof/outputlib/plot.py]: the columns of a [ViewPlot] *)

Module Plot.

(** A column label of a sequences table: [c[0]] is the tuple [(source,
    target)] of the flow (an entry is [None] for a column that belongs to a
    single node), [c[1]] the name of the value. *)
Abbreviation col := (list (option node) * string)%type.

(** A [pandas.DataFrame]: the row index and the columns in order. *)
Record DataFrame : Type := {
  index : list nat;
  series : list (col * list Q)
}.

Definition empty_frame : DataFrame := {| index := []; series := [] |}.

(** [df.columns]. *)
Definition columns (df : DataFrame) : list col := map fst (series df).

(** [df[labels]] for a list of labels: the columns carrying each label, label
    by label; a label that [df] does not have raises [KeyError]. *)
Definition select (df : DataFrame) (labels : list col) : result DataFrame :=
  if forallb (fun l => bool_decide (l ∈ columns df)) labels
  then Ok {| index := index df;
             series := flat_map
               (fun l => filter (fun s => fst s = l) (series df)) labels |}
  else Raise KeyError.

(** A record handed to [logging.warning]: the message and the list that is
    appended to it. *)
Inductive log_record : Type :=
  | Warning (msg : string) (missing : list col).

Inductive colors : Type :=
  | Color (c : string)
  | ColorList (l : list string).

Section ViewPlot.

(** The results of an optimisation, and [views.node(results, node)] of
    [oemof.outputlib.views], which returns a dictionary of tables. *)
Variable Results : Type.
Variable views_node : Results -> node -> result (gmap string DataFrame).

Record ViewPlot : Type := {
  results : Results;
  seq : DataFrame;
  subset : DataFrame;
  in_cols : option (list col);
  out_cols : option (list col);
  node_ : option node;
  ax : option nat;
  legend_kwargs : gmap string (list string)
}.

(** [len(c[0]) > 1 and c[0][k] == node]. *)
Definition flow_entry_is (k : nat) (node0 : node) (c : col) : bool :=
  (1 <? length (fst c))%nat && bool_decide (fst c !! k = Some (Some node0)).

(** [ViewPlot.update_node(self, node)]. *)
Definition update_node (node0 : node) : M ViewPlot unit :=
  fun self =>
    match (try! filtered := views_node (results self) node0 in
           getitem (filtered !! "sequences")) with
    | Raise e => (self, Raise e)
    | Ok self_seq =>
      ({| results := results self;
          seq := self_seq;
          in_cols := Some (filter (fun c => flow_entry_is 1 node0 c = true)
                             (columns self_seq));
          out_cols := Some (filter (fun c => flow_entry_is 0 node0 c = true)
                              (columns self_seq));
          node_ := Some node0;
          subset := self_seq;
          ax := ax self;
          legend_kwargs := delete "handles" (delete "labels" (legend_kwargs self)) |},
       Ok tt)
    end.

Definition set_subset (df : DataFrame) (self : ViewPlot) : ViewPlot :=
  {| results := results self; seq := seq self; subset := df;
     in_cols := in_cols self; out_cols := out_cols self; node_ := node_ self;
     ax := ax self; legend_kwargs := legend_kwargs self |}.

(** [ViewPlot.rearrange_subset(self, order, df)]; the state is the object
    together with the records logged so far. *)
Definition rearrange_subset (order : list col) (df : option DataFrame)
  : M (ViewPlot * list log_record) DataFrame :=
  fun '(self, log) =>
    let '(df, use_subset) :=
      match df with
      | None => (subset self, true)
      | Some df => (df, false)
      end in
    let cols := columns df in
    let neworder := filter (fun x => x ∈ cols) order in
    let missing := filter (fun x => x ∉ order) cols in
    let log :=
      if (0 <? length missing)%nat
      then (log ++ [Warning "Columns that are not part of the order list are removed: " missing])%list
      else log in
    if use_subset then
      match select df neworder with
      | Ok sub => ((set_subset sub self, log), select df neworder)
      | Raise e => ((self, log), Raise e)
      end
    else ((self, log), select df neworder).

(** [ViewPlot.color_from_dict(self, colordict, df)]. *)
Definition color_from_dict (self : ViewPlot) (colordict : gmap col string)
    (df : option DataFrame) : colors :=
  let df := match df with None => subset self | Some df => df end in
  let tmplist := map (fun c => colordict !! c) (columns df) in
  let tmplist :=
    map (fun v => match v with None => "#ff00f0" | Some v => v end) tmplist in
  match tmplist with
  | [c] => Color c
  | _ => ColorList tmplist
  end.

End ViewPlot.

Arguments results {Results} _.
Arguments seq {Results} _.
Arguments subset {Results} _.
Arguments in_cols {Results} _.
Arguments out_cols {Results} _.
Arguments node_ {Results} _.
Arguments ax {Results} _.
Arguments legend_kwargs {Results} _.
Arguments set_subset {Results} _ _.
Arguments update_node {Results} _ _ _.
Arguments rearrange_subset {Results} _ _ _.
Arguments color_from_dict {Results} _ _ _.

(** *** Reading a column label as a flow *)

(** The source and the target of the flow a column belongs to: the first two
    entries of [c[0]]; a label whose [c[0]] has fewer than two entries does
    not name a flow. *)
Definition flow_tuple (c : col) : option (option node * option node) :=
  match fst c with
  | s :: t :: _ => Some (s, t)
  | _ => None
  end.

Definition has_target (node0 : node) (c : col) : Prop :=
  exists s, flow_tuple c = Some (s, Some node0).

Definition has_source (node0 : node) (c : col) : Prop :=
  exists t, flow_tuple c = Some (Some node0, t).

#[global] Instance has_target_dec (node0 : node) (c : col) :
  Decision (has_target node0 c).
Proof.
  unfold has_target. destruct (flow_tuple c) as [[s t]|].
  - destruct (decide (t = Some node0)) as [He|Hne].
    + left. exists s. by rewrite He.
    + right. intros [s' [= _ ?]]. done.
  - right. intros [s' ?]. done.
Defined.

#[global] Instance has_source_dec (node0 : node) (c : col) :
  Decision (has_source node0 c).
Proof.
  unfold has_source. destruct (flow_tuple c) as [[s t]|].
  - destruct (decide (s = Some node0)) as [He|Hne].
    + left. exists t. by rewrite He.
    + right. intros [t' [= ? _]]. done.
  - right. intros [t' ?]. done.
Defined.

End Plot.

(** ** Concrete systems *)

Module Examples.

Import Custom.

Definition diesel_flow : Flow := {| nominal_value := None |}.

Definition el_flow : Flow := {| nominal_value := Some (100 # 1) |}.

(** A generator fed from the bus ["diesel"] and feeding ["electricity"],
    with the given fuel coefficients. *)
Definition genset (a b : Q) : DieselGenerator :=
  {| fuel_input := [("diesel", diesel_flow)];
     electrical_output := [("electricity", el_flow)];
     fuel_curve := [];
     fuel_coeff_a := a;
     fuel_coeff_b := b |}.

Definition obj_sloped : node -> DieselGenerator := fun _ => genset (100 # 1) (200 # 1).

Definition obj_flat : node -> DieselGenerator := fun _ => genset 0 (250 # 1).

(** A model over two time steps with the variables of both edges. *)
Definition model : Model :=
  {| TIMESTEPS := [0; 1]%nat;
     flow := {[ ("diesel", "genset", 0%nat); ("diesel", "genset", 1%nat);
                ("genset", "electricity", 0%nat); ("genset", "electricity", 1%nat) ]};
     NonConvexFlow :=
       Some {| status := {[ ("genset", "electricity", 0%nat);
                            ("genset", "electricity", 1%nat) ]} |};
     flows := {[ ("diesel", "genset") := diesel_flow;
                 ("genset", "electricity") := el_flow ]} |}.

Definition empty_block : Block := {| relation := None; relation_build := None |}.

(** A fuel curve given as specific consumption, which falls with the load:
    300 at half load, 250 at full load. *)
Definition fuel_curve_falling : dict Q Q := [(1 # 2, 300 # 1); (1 # 1, 250 # 1)].

Definition genset_kwargs : kwargs :=
  {| kw_fuel_input := Some [("diesel", diesel_flow)];
     kw_electrical_output := Some [("electricity", el_flow)] |}.

(** A base-class initialiser that leaves the edges alone. *)
Definition Transformer__init__ : node -> kwargs -> M World unit :=
  fun _ _ => ret tt.

(** The edges after the generator ["genset"] has been set up in a system
    without edges. *)
Definition genset_world : World :=
  outputs_update "genset" [("electricity", el_flow)]
    (outputs_update "diesel" [("genset", diesel_flow)] ∅).

(** The generator object obtained from [fuel_curve_falling]. *)
Definition genset_fitted : DieselGenerator :=
  {| fuel_input := [("diesel", diesel_flow)];
     electrical_output := [("electricity", el_flow)];
     fuel_curve := fuel_curve_falling;
     fuel_coeff_a := 100 # 1;
     fuel_coeff_b := 200 # 1 |}.

End Examples.

Module PlotExamples.

Import Plot.

(** The sequences of the node ["genset"]: its fuel inflow, its electrical
    outflow, and its own status. *)
Definition sequences : DataFrame :=
  {| index := [0; 1]%nat;
     series :=
       [ (([Some "diesel"; Some "genset"], "flow"), [2 # 1; 3 # 1]);
         (([Some "genset"; Some "electricity"], "flow"), [5 # 1; 7 # 1]);
         (([Some "genset"; None], "status"), [1 # 1; 1 # 1]) ] |}.

Definition views_node : unit -> node -> result (gmap string DataFrame) :=
  fun _ _ => Ok {[ "sequences" := sequences ]}.

(** A freshly made [ViewPlot] whose legend has cached labels. *)
Definition view : ViewPlot unit :=
  {| results := tt; seq := empty_frame; subset := empty_frame;
     in_cols := None; out_cols := None; node_ := None; ax := None;
     legend_kwargs := {[ "labels" := ["diesel"]; "loc" := ["center left"] ]} |}.

Definition inflow : col := ([Some "diesel"; Some "genset"], "flow").

Definition outflow : col := ([Some "genset"; Some "electricity"], "flow").

Definition own_status : col := ([Some "genset"; None], "status").

(** The view after [update_node("genset")]. *)
Definition genset_view : ViewPlot unit :=
  {| results := tt; seq := sequences; subset := sequences;
     in_cols := Some [inflow]; out_cols := Some [outflow; own_status];
     node_ := Some "genset"; ax := None;
     legend_kwargs := {[ "loc" := ["center left"] ]} |}.

Definition wind : col := ([Some "wind"; Some "electricity"], "flow").

Definition colordict : gmap col string :=
  {[ inflow := "#555555"; outflow := "#00bfff" ]}.

Definition inflow_only : DataFrame :=
  {| index := [0; 1]%nat; series := [ (inflow, [2 # 1; 3 # 1]) ] |}.

End PlotExamples.

(** ** More concrete systems *)

Module MoreExamples.

Import Custom.

(** The model of [Examples.model] without the status variable of the second
    time step. *)
Definition model_gap : Model :=
  {| TIMESTEPS := [0; 1]%nat;
     flow := flow Examples.model;
     NonConvexFlow :=
       Some {| status := {[ ("genset", "electricity", 0%nat) ]} |};
     flows := flows Examples.model |}.

(** A model without time steps. *)
Definition model_idle : Model :=
  {| TIMESTEPS := [];
     flow := ∅; NonConvexFlow := None; flows := ∅ |}.

(** The generator running at half load: 50 out of 100 delivered, 250 of
    fuel taken in. *)
Definition half_load : var -> Q :=
  fun v =>
    match v with
    | flow_var "diesel" "genset" _ => 250 # 1
    | flow_var _ _ _ => 50 # 1
    | status_var _ _ _ => 1 # 1
    end.

(** A fuel curve given as absolute consumption, which rises with the load. *)
Definition rising_points : list Q := [1 # 2; 1 # 1].

Definition rising_consumption : list Z := [120; 200]%Z.

(** Keyword arguments without [electrical_output]. *)
Definition kwargs_no_output : kwargs :=
  {| kw_fuel_input := Some [("diesel", Examples.diesel_flow)];
     kw_electrical_output := None |}.

(** Keyword arguments without [fuel_input]. *)
Definition kwargs_no_fuel : kwargs :=
  {| kw_fuel_input := None;
     kw_electrical_output := Some [("electricity", Examples.el_flow)] |}.

(** Keyword arguments naming two fuel buses. *)
Definition kwargs_two_fuels : kwargs :=
  {| kw_fuel_input := Some [("diesel", Examples.diesel_flow);
                            ("biodiesel", Examples.diesel_flow)];
     kw_electrical_output := Some [("electricity", Examples.el_flow)] |}.

End MoreExamples.

(** ** [oemof/outputlib/plot.py]: the other methods of [ViewPlot] *)

Module PlotMethods.

Import Plot.

(** *** Python strings *)

(** [s.replace(old, new)] for a non-empty [old], scanning from the left:
    [skip] counts the characters of a match that are still to be dropped. *)
Fixpoint replace_from (old new : string) (skip : nat) (s : string) : string :=
  match s with
  | EmptyString => EmptyString
  | String c s' =>
    match skip with
    | S k => replace_from old new k s'
    | O =>
      if String.prefix old s
      then new ++ replace_from old new (String.length old - 1) s'
      else String c (replace_from old new 0 s')
    end
  end.

(** [new] after every character. *)
Fixpoint intersperse (new : string) (s : string) : string :=
  match s with
  | EmptyString => EmptyString
  | String c s' => String c (new ++ intersperse new s')
  end.

(** [s.replace(old, new)]; an empty [old] matches before every character and
    at the end. *)
Definition str_replace (s old new : string) : string :=
  match old with
  | EmptyString => new ++ intersperse new s
  | String _ _ => replace_from old new 0 s
  end.

(** *** Python lists *)

(** [l[-1]]. *)
Definition last_item {A : Type} (l : list A) : result A :=
  match rev l with
  | x :: _ => Ok x
  | [] => Raise IndexError
  end.

(** [list(range(start, stop, step))]. *)
Definition py_range (start stop step : Z) : result (list Z) :=
  if (step =? 0)%Z then Raise (ValueError ["range() arg 3 must not be zero"])
  else
    let count :=
      if (0 <? step)%Z then ((stop - start + step - 1) / step)%Z
      else ((start - stop - step - 1) / (- step))%Z in
    Ok (map (fun k => (start + Z.of_nat k * step)%Z) (List.seq 0 (Z.to_nat count))).

(** Every [S d]-th element of [l], the first one after [skip] elements. *)
Fixpoint every {A : Type} (d : nat) (skip : nat) (l : list A) : list A :=
  match l with
  | [] => []
  | x :: l' =>
    match skip with
    | O => x :: every d d l'
    | S k => every d k l'
    end
  end.

(** [l[0::step]]: for a positive step every [step]-th element from the
    first; for a negative step the walk from the first element towards the
    front ends at once. *)
Definition slice_from_start {A : Type} (l : list A) (step : Z) : result (list A) :=
  if (step =? 0)%Z then Raise (ValueError ["slice step cannot be zero"])
  else if (0 <? step)%Z then Ok (every (Z.to_nat step - 1) 0 l)
  else Ok (take 1 l).

(** *** Calls on the axis *)

(** The calls a method makes on a matplotlib axis, in order. *)
Inductive ax_call : Type :=
  | legend (ax : nat) (kwargs : gmap string (list string))
  | set_xticks (ax : nat) (ticks : list Z)
  | set_xticklabels (ax : nat) (labels : list string).

(** [df.reset_index(drop=True)]: the rows are numbered from zero. *)
Definition reset_index (df : DataFrame) : DataFrame :=
  {| index := List.seq 0 (length (index df)); series := series df |}.

Section Methods.

Variable Results : Type.
Variable views_node : Results -> node -> result (gmap string DataFrame).

(** What matplotlib and pandas answer: the handles and labels an axis
    reports, its tick positions, the text of a date in a format, the axis a
    table is plotted on, and the rows of a table between two index labels
    ([df.loc[a:b]]). *)
Variable get_legend_handles_labels : nat -> list string * list string.
Variable get_xticks : nat -> list Q.
Variable strftime : string -> nat -> string.
Variable PlotKwargs : Type.
Variable DataFrame_plot : DataFrame -> PlotKwargs -> result nat.
Variable loc : DataFrame -> nat -> nat -> result DataFrame.

(** [ViewPlot.__init__(self, results, node, ax=ax)]. *)
Definition __init__ (results0 : Results) (node0 : option node)
    (ax0 : option nat) : result (ViewPlot Results) :=
  let self :=
    {| results := results0; seq := empty_frame; subset := empty_frame;
       in_cols := None; out_cols := None; node_ := None; ax := ax0;
       legend_kwargs := ∅ |} in
  match node0 with
  | None => Ok self
  | Some n =>
    match update_node views_node n self with
    | (self', Ok _) => Ok self'
    | (_, Raise e) => Raise e
    end
  end.

(** [self.ax.<method>]: no axis, no attribute. *)
Definition getattr_ax (self : ViewPlot Results) : result nat :=
  match ax self with
  | Some a => Ok a
  | None => Raise AttributeError
  end.

Definition set_ax (a : option nat) (self : ViewPlot Results) : ViewPlot Results :=
  {| results := results self; seq := seq self; subset := subset self;
     in_cols := in_cols self; out_cols := out_cols self; node_ := node_ self;
     ax := a; legend_kwargs := legend_kwargs self |}.

(** [self.legend_kwargs[k] = v]. *)
Definition set_legend_kwarg (k : string) (v : list string)
    (self : ViewPlot Results) : ViewPlot Results :=
  {| results := results self; seq := seq self; subset := subset self;
     in_cols := in_cols self; out_cols := out_cols self; node_ := node_ self;
     ax := ax self; legend_kwargs := <[k := v]> (legend_kwargs self) |}.

(** [if k not in self.legend_kwargs: self.legend_kwargs[k] = pick(
    self.ax.get_legend_handles_labels())]. *)
Definition fetch_legend_kwarg (k : string)
    (pick : list string * list string -> list string)
    : M (ViewPlot Results) unit :=
  fun self =>
    match legend_kwargs self !! k with
    | Some _ => (self, Ok tt)
    | None =>
      match getattr_ax self with
      | Ok a => (set_legend_kwarg k (pick (get_legend_handles_labels a)) self, Ok tt)
      | Raise e => (self, Raise e)
      end
    end.

(** The five replacements made on a label; replacing [None] is a
    [TypeError]. *)
Definition clean_label (node0 : option node) (label : string) : result string :=
  let label := str_replace label "(" "" in
  let label := str_replace label "), flow)" "" in
  try! label := match node0 with
                | Some n => Ok (str_replace label n "")
                | None => Raise TypeError
                end in
  let label := str_replace label "," "" in
  let label := str_replace label " " "" in
  Ok label.

(** The loop over the labels: each cleaned label is appended to
    [new_labels], and the list is stored under ['labels'] in the same
    pass. *)
Fixpoint clean_labels (labels new_labels : list string)
    : M (ViewPlot Results) unit :=
  match labels with
  | [] => ret tt
  | label :: labels' =>
    fun self =>
      match clean_label (node_ self) label with
      | Ok label' =>
        let new_labels := (new_labels ++ [label'])%list in
        clean_labels labels' new_labels
          (set_legend_kwarg "labels" new_labels self)
      | Raise e => (self, Raise e)
      end
  end.

(** [ViewPlot.clear_legend_labels(self)]; the state is the object together
    with the calls made on the axis so far. *)
Definition clear_legend_labels : M (ViewPlot Results * list ax_call) unit :=
  fun '(self, calls) =>
    match (do! _ := fetch_legend_kwarg "handles" fst in
           do! _ := fetch_legend_kwarg "labels" snd in
           do! labels := (fun self => (self, getitem (legend_kwargs self !! "labels"))) in
           clean_labels labels []) self with
    | (self, Raise e) => ((self, calls), Raise e)
    | (self, Ok _) =>
      match getattr_ax self with
      | Ok a => ((self, (calls ++ [legend a (legend_kwargs self)])%list), Ok tt)
      | Raise e => ((self, calls), Raise e)
      end
    end.

(** [ViewPlot.slice_results(self, date_from, date_to)]. *)
Definition slice_results (date_from date_to : option nat)
    : M (ViewPlot Results) unit :=
  fun self =>
    match (try! date_from := match date_from with
                             | Some d => Ok d
                             | None => Custom.first (index (seq self))
                             end in
           try! date_to := match date_to with
                           | Some d => Ok d
                           | None => last_item (index (seq self))
                           end in
           loc (seq self) date_from date_to) with
    | Ok rows => (set_subset rows self, Ok tt)
    | Raise e => (self, Raise e)
    end.

(** [ViewPlot.plot(self, node, original_xticks, **kwargs)]; it returns the
    object itself. *)
Definition plot (node0 : option node) (original_xticks : bool)
    (kwargs : PlotKwargs) : M (ViewPlot Results) unit :=
  do! _ := match node0 with
           | Some n => update_node views_node n
           | None => ret tt
           end in
  do! a := (fun self =>
              (self, DataFrame_plot
                       (if original_xticks then subset self
                        else reset_index (subset self)) kwargs)) in
  do! _ := modify (set_ax (Some a)) in
  do! _ := modify (set_legend_kwarg "handles" (fst (get_legend_handles_labels a))) in
  modify (set_legend_kwarg "labels" (snd (get_legend_handles_labels a))).

(** [ViewPlot.set_datetime_ticks(self, tick_distance, number_autoticks,
    date_format)]. *)
Definition set_datetime_ticks (tick_distance : option Z) (number_autoticks : Z)
    (date_format : string) : M (ViewPlot Results * list ax_call) unit :=
  fun '(self, calls) =>
    let dates := index (subset self) in
    match (try! a := getattr_ax self in
           let xticks := map Custom.py_int (get_xticks a) in
           try! tick_distance :=
             match tick_distance with
             | Some d => Ok d
             | None =>
               if (number_autoticks =? 0)%Z then Raise ZeroDivisionError
               else Ok (Custom.py_int (inject_Z (Z.of_nat (length dates))
                                       / inject_Z number_autoticks)%Q - 1)%Z
             end in
           try! x_first := Custom.first xticks in
           try! x_last := last_item xticks in
           try! ticks := py_range x_first x_last tick_distance in
           Ok (a, tick_distance, ticks)) with
    | Raise e => ((self, calls), Raise e)
    | Ok (a, tick_distance, ticks) =>
      let calls := (calls ++ [set_xticks a ticks])%list in
      match slice_from_start dates tick_distance with
      | Raise e => ((self, calls), Raise e)
      | Ok shown =>
        ((self, (calls ++ [set_xticklabels a (map (strftime date_format) shown)])%list),
         Ok tt)
      end
    end.

End Methods.

Arguments __init__ {Results} _ _ _ _.
Arguments getattr_ax {Results} _.
Arguments set_ax {Results} _ _.
Arguments set_legend_kwarg {Results} _ _ _.
Arguments fetch_legend_kwarg {Results} _ _ _ _.
Arguments clean_labels {Results} _ _ _.
Arguments clear_legend_labels {Results} _ _.
Arguments slice_results {Results} _ _ _ _.
Arguments plot {Results} _ _ {PlotKwargs} _ _ _ _ _.
Arguments set_datetime_ticks {Results} _ _ _ _ _ _.

(** The closing lines of [io_plot] (from [handles, labels =
    self.ax.get_legend_handles_labels()] on): the legend entries of the
    [separator] lines, reversed, are put before those of the bars, and the
    whole lists are reversed. *)
Definition io_plot_legend_order (handles labels : list string)
    (separator : nat) : list string * list string :=
  let tmp_lab := rev (take separator labels) in
  let tmp_hand := rev (take separator handles) in
  let handles := (tmp_hand ++ drop separator handles)%list in
  let labels := (tmp_lab ++ drop separator labels)%list in
  (rev handles, rev labels).

(** The characters of a string. *)
Definition chars (s : string) : list Ascii.ascii := String.list_ascii_of_string s.

End PlotMethods.

Module AxesExamples.

Import Plot PlotMethods.

(** An axis that reports two plotted lines. *)
Definition get_legend_handles_labels : nat -> list string * list string :=
  fun _ => (["line 0"; "line 1"],
            ["((diesel, genset), flow)"; "((genset, electricity), flow)"]).

Definition get_xticks : nat -> list Q := fun _ => [0 # 1; 5 # 1; 10 # 1].

(** Dates are written as their number. *)
Definition strftime : string -> nat -> string :=
  fun _ d => String (Ascii.ascii_of_nat (48 + d)) "".

(** Plotting a table gives axis 1, except that an empty table cannot be
    plotted. *)
Definition DataFrame_plot : DataFrame -> unit -> result nat :=
  fun df _ => match series df with [] => Raise TypeError | _ => Ok 1%nat end.

(** Rows whose label lies between the bounds. *)
Definition loc : DataFrame -> nat -> nat -> result DataFrame :=
  fun df a b =>
    let keep := map (fun d => (a <=? d)%nat && (d <=? b)%nat) (index df) in
    let pick {A : Type} (l : list A) :=
      map snd (filter (fun p => fst p = true) (combine keep l)) in
    Ok {| index := pick (index df);
          series := map (fun s => (fst s, pick (snd s))) (series df) |}.

(** The view of ["genset"] on axis 1, with eight rows selected. *)
Definition long_view : ViewPlot unit :=
  {| results := tt; seq := PlotExamples.sequences;
     subset := {| index := [0; 1; 2; 3; 4; 5; 6; 7]%nat; series := [] |};
     in_cols := None; out_cols := None; node_ := Some "genset";
     ax := Some 1%nat; legend_kwargs := ∅ |}.

(** The same object with four rows selected. *)
Definition short_view : ViewPlot unit :=
  {| results := tt; seq := PlotExamples.sequences;
     subset := {| index := [0; 1; 2; 3]%nat; series := [] |};
     in_cols := None; out_cols := None; node_ := Some "genset";
     ax := Some 1%nat; legend_kwargs := ∅ |}.

End AxesExamples.

Module LegendExamples.

Import Plot PlotMethods.

(** [AxesExamples.long_view] after its legend labels have been cleaned. *)
Definition cleaned_view : ViewPlot unit :=
  {| results := tt; seq := PlotExamples.sequences;
     subset := {| index := [0; 1; 2; 3; 4; 5; 6; 7]%nat; series := [] |};
     in_cols := None; out_cols := None; node_ := Some "genset";
     ax := Some 1%nat;
     legend_kwargs := {[ "handles" := ["line 0"; "line 1"];
                         "labels" := ["diesel"; "electricity"] ]} |}.

(** A view on axis 1 that has never been given a node. *)
Definition nodeless_view : ViewPlot unit :=
  {| results := tt; seq := empty_frame; subset := empty_frame;
     in_cols := None; out_cols := None; node_ := None; ax := Some 1%nat;
     legend_kwargs := ∅ |}.

(** A view without an axis whose legend entries are cached. *)
Definition cached_view : ViewPlot unit :=
  {| results := tt; seq := empty_frame; subset := empty_frame;
     in_cols := None; out_cols := None; node_ := Some "genset"; ax := None;
     legend_kwargs := {[ "handles" := ["line 0"];
                         "labels" := ["(genset, heat)"] ]} |}.

End LegendExamples.

(** * Properties *)

(** ** The grouping function *)

Lemma subclass_of_DieselGenerator_mro (c : Grouping.cls) :
  Grouping.subclass_of_DieselGenerator c = true <->
  In Grouping.DieselGenerator (Grouping.mro c).
Proof.
  induction c as [| | | | | | name b IH]; simpl;
    try (split; [discriminate | intros H; repeat destruct H as [H|H]; discriminate || contradiction]).
  - split; [intros _; now left | reflexivity].
  - rewrite IH. split; [intros H; now right | intros [H|H]; [discriminate | exact H]].
Qed.

(** C3: [custom_component_grouping(node)] returns [DieselGeneratorBlock]
    exactly when [node] is an instance of [DieselGenerator] (of the class or
    of a class derived from it), and returns [None] for every other node. *)
Theorem custom_component_grouping_iff (c : Grouping.cls) :
  (Grouping.custom_component_grouping c = Some Grouping.DieselGeneratorBlock
     <-> Grouping.isinstance_DieselGenerator c) /\
  (~ Grouping.isinstance_DieselGenerator c
     <-> Grouping.custom_component_grouping c = None).
Proof.
  unfold Grouping.custom_component_grouping, Grouping.isinstance_DieselGenerator.
  rewrite <- subclass_of_DieselGenerator_mro.
  destruct (Grouping.subclass_of_DieselGenerator c); split; split;
    intros H; try reflexivity; try discriminate; try congruence.
Qed.

(** ** Loops *)

Lemma for_app {S A : Type} (l1 l2 : list A) (body : A -> M S unit) (s : S) :
  for_ (l1 ++ l2)%list body s = (do! _ := for_ l1 body in for_ l2 body) s.
Proof.
  revert s. induction l1 as [|x l1 IH]; intros s; simpl.
  - reflexivity.
  - unfold mbind'. destruct (body x s) as [s' [[]|e]]; [|reflexivity].
    rewrite IH. reflexivity.
Qed.

Lemma for_ext {S A : Type} (l : list A) (f g : A -> M S unit) :
  (forall x s, In x l -> f x s = g x s) -> forall s, for_ l f s = for_ l g s.
Proof.
  induction l as [|x l IH]; intros Hfg s; simpl; [reflexivity|].
  unfold mbind'. rewrite (Hfg x s) by now left.
  destruct (g x s) as [s' [[]|e]]; [|reflexivity].
  apply IH. intros y s0 Hy. apply Hfg. now right.
Qed.

(** Nested loops visit the elements of the flattened list in order. *)
Lemma for_bind {S A B : Type} (l : list A) (f : A -> list B)
    (body : B -> M S unit) (s : S) :
  for_ (x ← l; f x) body s = for_ l (fun x => for_ (f x) body) s.
Proof.
  revert s. induction l as [|x l IH]; intros s; simpl; [reflexivity|].
  rewrite for_app. unfold mbind'.
  destruct (for_ (f x) body s) as [s' [[]|e]]; [|reflexivity].
  apply IH.
Qed.

Lemma for_singleton {S A : Type} (x : A) (body : A -> M S unit) (s : S) :
  for_ [x] body s = body x s.
Proof.
  simpl. unfold mbind', ret. destruct (body x s) as [s' [[]|e]]; reflexivity.
Qed.

(** ** The constraint block *)

Section BlockFacts.

Import Custom.

Variable obj : node -> DieselGenerator.
Variable m : Model.

Lemma keys_by_node_lookup (attr : DieselGenerator -> dict node Flow)
    (group : list node) (n : node) :
  keys_by_node obj attr group !! n =
  if decide (n ∈ group) then Some (keys (attr (obj n))) else None.
Proof.
  unfold keys_by_node.
  assert (G : forall acc : gmap node (list node),
    foldl (fun acc n => <[n := keys (attr (obj n))]> acc) acc group !! n =
    if decide (n ∈ group) then Some (keys (attr (obj n))) else acc !! n).
  { induction group as [|x g IH]; intros acc; simpl.
    - destruct (decide (n ∈ [])) as [H|H]; [by apply elem_of_nil in H | done].
    - rewrite IH. destruct (decide (n ∈ g)) as [H|H].
      + rewrite decide_True; [done | by right].
      + destruct (decide (n = x)) as [->|Hne].
        * rewrite lookup_insert_eq. rewrite decide_True; [done | by left].
        * rewrite lookup_insert_ne by done.
          rewrite decide_False; [done|]. rewrite elem_of_cons. tauto. }
  rewrite G. destruct (decide (n ∈ group)); [done | apply lookup_empty].
Qed.

Lemma elem_of_visit_order (group : list node) (idx : index) :
  idx ∈ visit_order obj m group <-> in_domain obj m group idx.
Proof.
  destruct idx as [[[n i] o] t]. unfold visit_order, in_domain.
  rewrite <- !list_elem_of_In. split.
  - intros H. apply list_elem_of_bind in H as (n' & H & Hn).
    apply list_elem_of_bind in H as (t' & H & Ht).
    apply list_elem_of_bind in H as (i' & H & Hi).
    apply list_elem_of_bind in H as (o' & H & Ho).
    apply list_elem_of_singleton in H. by simplify_eq.
  - intros (Hn & Hi & Ho & Ht).
    apply list_elem_of_bind. exists n. split; [|done].
    apply list_elem_of_bind. exists t. split; [|done].
    apply list_elem_of_bind. exists i. split; [|done].
    apply list_elem_of_bind. exists o. split; [|done].
    by apply list_elem_of_singleton.
Qed.

(** The four nested loops are one loop over the tuples in visiting order. *)
Lemma rule_as_for (group g : list node) (b : Block) :
  (forall n, In n g -> n ∈ group) ->
  _input_output_relation_rule obj m g
    (keys_by_node obj fuel_input group)
    (keys_by_node obj electrical_output group) b =
  for_ (visit_order obj m g) (rule_body obj m) b.
Proof.
  intros Hg. unfold visit_order, _input_output_relation_rule.
  rewrite for_bind. apply for_ext. intros n s Hn.
  rewrite for_bind. apply for_ext. intros t s1 _.
  rewrite !keys_by_node_lookup, !decide_True by auto.
  unfold mbind' at 1, lift; simpl.
  rewrite for_bind. apply for_ext. intros i s2 _.
  unfold mbind' at 1; simpl.
  rewrite for_bind. apply for_ext. intros o s3 _.
  rewrite for_singleton. reflexivity.
Qed.

Lemma rule_body_ok (idx : index) (b : Block) (r : gmap index constraint) :
  relation b = Some r ->
  is_Ok (relation_sides obj m idx.1.1.1 idx.1.1.2 idx.1.2 idx.2) ->
  exists c, constraint_at obj m idx = Some c /\
    rule_body obj m idx b = (set_relation (Some (<[idx := c]> r)) b, Ok tt).
Proof.
  destruct idx as [[[n i] o] t]; simpl. intros Hr Hok.
  unfold rule_body, constraint_at.
  destruct (relation_sides obj m n i o t) as [[lhs rhs]|e]; [|contradiction].
  exists (CEq lhs rhs). split; [reflexivity|].
  unfold relation_add. rewrite Hr. reflexivity.
Qed.

Lemma rule_body_raise (idx : index) (b : Block) :
  ~ is_Ok (relation_sides obj m idx.1.1.1 idx.1.1.2 idx.1.2 idx.2) ->
  rule_body obj m idx b = (b, Raise (creation_error idx.1.1.1 idx.1.2)).
Proof.
  destruct idx as [[[n i] o] t]; simpl. intros Hno. unfold rule_body.
  destruct (relation_sides obj m n i o t) as [[lhs rhs]|e]; [|reflexivity].
  exfalso. apply Hno. exact I.
Qed.

(** When every visited tuple evaluates, the loop ends normally and the
    relation holds, at each visited tuple, the constraint built for it. *)
Lemma for_rule_ok (l : list index) :
  forall (b : Block) (r : gmap index constraint),
    relation b = Some r ->
    (forall idx, idx ∈ l ->
       is_Ok (relation_sides obj m idx.1.1.1 idx.1.1.2 idx.1.2 idx.2)) ->
    exists r', for_ l (rule_body obj m) b = (set_relation (Some r') b, Ok tt) /\
      forall k, r' !! k =
        if decide (k ∈ l) then constraint_at obj m k else r !! k.
Proof.
  induction l as [|idx l IH]; intros b r Hr Hok.
  - exists r. split.
    + simpl. unfold ret. destruct b; simpl in *. by rewrite Hr.
    + intros k. rewrite decide_False; [done | apply not_elem_of_nil].
  - destruct (rule_body_ok idx b r Hr) as (c & Hc & Hstep).
    { apply Hok. by left. }
    destruct (IH (set_relation (Some (<[idx := c]> r)) b) (<[idx := c]> r))
      as (r' & Hrun & Hlook); [reflexivity | |].
    { intros k Hk. apply Hok. by right. }
    exists r'. split.
    + simpl. unfold mbind'. rewrite Hstep, Hrun. reflexivity.
    + intros k. rewrite Hlook. destruct (decide (k ∈ l)) as [Hk|Hk].
      * rewrite decide_True; [done | by right].
      * destruct (decide (k = idx)) as [->|Hne].
        -- rewrite lookup_insert_eq, decide_True; [done | by left].
        -- rewrite lookup_insert_ne by done.
           rewrite decide_False; [done|]. rewrite elem_of_cons. tauto.
Qed.

(** The first visited tuple whose sides do not evaluate ends the loop with
    the [ValueError] of the [except] clause. *)
Lemma for_rule_raise (before after : list index) (idx : index)
    (b : Block) (r : gmap index constraint) :
  relation b = Some r ->
  (forall k, k ∈ before ->
     is_Ok (relation_sides obj m k.1.1.1 k.1.1.2 k.1.2 k.2)) ->
  ~ is_Ok (relation_sides obj m idx.1.1.1 idx.1.1.2 idx.1.2 idx.2) ->
  exists b', for_ (before ++ idx :: after)%list (rule_body obj m) b =
    (b', Raise (creation_error idx.1.1.1 idx.1.2)).
Proof.
  intros Hr Hok Hno.
  destruct (for_rule_ok before b r Hr Hok) as (r' & Hrun & _).
  exists (set_relation (Some r') b).
  rewrite for_app. unfold mbind' at 1. rewrite Hrun.
  simpl. unfold mbind'. rewrite rule_body_raise by exact Hno. reflexivity.
Qed.

(** An exception leaving the loop is the [ValueError] of the first visited
    tuple whose sides do not evaluate. *)
Lemma for_rule_raise_inv (l : list index) :
  forall (b b' : Block) (r : gmap index constraint) (e : exn),
    relation b = Some r ->
    for_ l (rule_body obj m) b = (b', Raise e) ->
    exists before idx after,
      l = (before ++ idx :: after)%list /\
      (forall k, k ∈ before ->
         is_Ok (relation_sides obj m k.1.1.1 k.1.1.2 k.1.2 k.2)) /\
      ~ is_Ok (relation_sides obj m idx.1.1.1 idx.1.1.2 idx.1.2 idx.2) /\
      e = creation_error idx.1.1.1 idx.1.2.
Proof.
  induction l as [|idx l IH]; intros b b' r e Hr Hrun.
  - discriminate.
  - destruct (relation_sides obj m idx.1.1.1 idx.1.1.2 idx.1.2 idx.2)
      as [sides|e0] eqn:Hs.
    + destruct (rule_body_ok idx b r Hr) as (c & _ & Hstep);
        [by rewrite Hs|].
      simpl in Hrun. unfold mbind' in Hrun. rewrite Hstep in Hrun.
      destruct (IH (set_relation (Some (<[idx := c]> r)) b) b'
                  (<[idx := c]> r) e eq_refl Hrun)
        as (before & k & after & -> & Hok & Hno & ->).
      exists (idx :: before), k, after. split; [reflexivity|].
      split; [|split; [exact Hno | reflexivity]].
      intros k' Hk'. apply elem_of_cons in Hk' as [->|Hk'].
      * rewrite Hs. exact I.
      * by apply Hok.
    + assert (Hno : ~ is_Ok (relation_sides obj m idx.1.1.1 idx.1.1.2
                                idx.1.2 idx.2)).
      { rewrite Hs. intros []. }
      simpl in Hrun. unfold mbind' in Hrun.
      rewrite (rule_body_raise idx b Hno) in Hrun. injection Hrun as <- <-.
      exists [], idx, l. split; [reflexivity|].
      split; [|split; [exact Hno | reflexivity]].
      intros k Hk. by apply elem_of_nil in Hk.
Qed.

(** Whatever the outcome, the loop puts constraints at visited tuples only. *)
Lemma for_rule_entries (l : list index) :
  forall (b b' : Block) (res : result unit),
    for_ l (rule_body obj m) b = (b', res) ->
    forall r' k c, relation b' = Some r' -> r' !! k = Some c ->
      k ∈ l \/ exists r, relation b = Some r /\ r !! k = Some c.
Proof.
  induction l as [|idx l IH]; intros b b' res Hrun r' k c Hr' Hk.
  - simpl in Hrun. unfold ret in Hrun. simplify_eq. right. eauto.
  - simpl in Hrun. unfold mbind' in Hrun.
    destruct (rule_body obj m idx b) as [b1 [[]|e]] eqn:Hstep.
    + destruct (IH b1 b' res Hrun r' k c Hr' Hk) as [Hin|(r1 & Hr1 & Hk1)].
      * left. by right.
      * destruct idx as [[[n i] o] t]. unfold rule_body in Hstep.
        destruct (relation_sides obj m n i o t) as [[lhs rhs]|e].
        -- unfold relation_add in Hstep.
           destruct (relation b) as [r|] eqn:Hr; simplify_eq.
           simpl in Hr1. simplify_eq.
           destruct (decide (k = (n, i, o, t))) as [->|Hne].
           ++ left. by left.
           ++ rewrite lookup_insert_ne in Hk1 by done. right. eauto.
        -- unfold raise in Hstep. simplify_eq.
    + simplify_eq. destruct idx as [[[n i] o] t]. unfold rule_body in Hstep.
      destruct (relation_sides obj m n i o t) as [[lhs rhs]|e'].
      * unfold relation_add in Hstep.
        destruct (relation b) as [r|] eqn:Hr; simplify_eq.
      * unfold raise in Hstep. simplify_eq. right. eauto.
Qed.

(** What [relation_sides] returns when it returns. *)
Lemma relation_sides_inv (n i o : node) (t : nat) (lhs rhs : expr) :
  relation_sides obj m n i o t = Ok (lhs, rhs) ->
  exists nom,
    (flows m !! (n, o)) ≫= nominal_value = Some nom /\
    ~ (fuel_coeff_a (obj n) == 0)%Q /\
    lhs = EDiv (EMul (ESub (EVar (flow_var i n t))
                           (EMul (EConst (fuel_coeff_b (obj n)))
                                 (EVar (status_var n o t))))
                     (EConst nom))
               (EConst (fuel_coeff_a (obj n))) /\
    rhs = EVar (flow_var n o t).
Proof.
  unfold relation_sides, var_getitem, getattr_NonConvexFlow, getitem,
    expr_mul, expr_div.
  intros H.
  destruct (decide ((i, n, t) ∈ flow m)); simpl in H; [|discriminate].
  destruct (NonConvexFlow m) as [nc|]; simpl in H; [|discriminate].
  destruct (decide ((n, o, t) ∈ status nc)); simpl in H; [|discriminate].
  destruct (flows m !! (n, o)) as [fl|]; simpl in H; [|discriminate].
  destruct (nominal_value fl) as [nom|] eqn:Hnom; simpl in H; [|discriminate].
  destruct (Qeq_bool (fuel_coeff_a (obj n)) 0) eqn:Ha; simpl in H; [discriminate|].
  destruct (decide ((n, o, t) ∈ flow m)); simpl in H; [|discriminate].
  injection H as <- <-. exists nom. repeat split.
  - exact Hnom.
  - intros Hz. apply Qeq_bool_iff in Hz. congruence.
Qed.

(** The [try] body succeeds exactly when the three variables exist, the
    model has the block of non-convex flows, the output flow has a nominal
    value, and the slope is not zero. *)
Lemma relation_sides_ok_iff (n i o : node) (t : nat) :
  is_Ok (relation_sides obj m n i o t) <->
  (i, n, t) ∈ flow m /\ (n, o, t) ∈ flow m /\
  (exists nc, NonConvexFlow m = Some nc /\ (n, o, t) ∈ status nc) /\
  (exists nom, (flows m !! (n, o)) ≫= nominal_value = Some nom) /\
  ~ (fuel_coeff_a (obj n) == 0)%Q.
Proof.
  unfold relation_sides, var_getitem, getattr_NonConvexFlow, getitem,
    expr_mul, expr_div.
  split.
  - intros H.
    destruct (decide ((i, n, t) ∈ flow m)); simpl in H; [|contradiction].
    destruct (NonConvexFlow m) as [nc|]; simpl in H; [|contradiction].
    destruct (decide ((n, o, t) ∈ status nc)); simpl in H; [|contradiction].
    destruct (flows m !! (n, o)) as [fl|]; simpl in H; [|contradiction].
    destruct (nominal_value fl) as [nom|] eqn:Hnom; simpl in H; [|contradiction].
    destruct (Qeq_bool (fuel_coeff_a (obj n)) 0) eqn:Ha; simpl in H;
      [contradiction|].
    destruct (decide ((n, o, t) ∈ flow m)); simpl in H; [|contradiction].
    repeat split; eauto.
    intros Hz. apply Qeq_bool_iff in Hz. congruence.
  - intros (Hi & Ho & (nc & -> & Hst) & (nom & Hnom) & Ha).
    rewrite decide_True by exact Hi. simpl.
    rewrite decide_True by exact Hst. simpl.
    destruct (flows m !! (n, o)) as [fl|]; simpl in *; [|discriminate].
    rewrite Hnom. simpl.
    destruct (Qeq_bool (fuel_coeff_a (obj n)) 0) eqn:Hb.
    + exfalso. apply Ha. by apply Qeq_bool_iff.
    + simpl. rewrite decide_True by exact Ho. exact I.
Qed.

(** A zero slope makes the division, and with it the [try] body, fail. *)
Lemma relation_sides_zero_slope (n i o : node) (t : nat) :
  (fuel_coeff_a (obj n) == 0)%Q -> ~ is_Ok (relation_sides obj m n i o t).
Proof.
  intros Hz Hok.
  destruct (relation_sides obj m n i o t) as [[lhs rhs]|e] eqn:H; [|exact Hok].
  apply relation_sides_inv in H as (nom & _ & Hne & _). contradiction.
Qed.

Lemma create_Some_unfold (group : list node) (b : Block) :
  _create obj m (Some group) b =
  for_ (visit_order obj m group) (rule_body obj m)
    {| relation := Some ∅;
       relation_build := Some BuildAction_input_output_relation_rule |}.
Proof.
  unfold _create, mbind', modify. simpl.
  rewrite rule_as_for; [reflexivity|]. intros n Hn. by apply list_elem_of_In.
Qed.

(** [_create] lets no exception of a constraint expression through: what it
    raises is the [ValueError] of a visited tuple whose sides do not
    evaluate. *)
Lemma create_raise_inv (group : list node) (b b' : Block) (e : exn) :
  _create obj m (Some group) b = (b', Raise e) ->
  exists n i o t,
    in_domain obj m group (n, i, o, t) /\
    ~ is_Ok (relation_sides obj m n i o t) /\
    e = creation_error n o.
Proof.
  rewrite create_Some_unfold. intros Hrun.
  apply (for_rule_raise_inv _ _ _ ∅) in Hrun
    as (before & [[[n i] o] t] & after & Hl & _ & Hno & ->); [|reflexivity].
  exists n, i, o, t. split; [|split; [exact Hno | reflexivity]].
  apply elem_of_visit_order. rewrite Hl. apply elem_of_app. right. by left.
Qed.

End BlockFacts.

(** C4: called with [group = None], [_create] returns [None] and leaves the
    block as it was; and a constraint is found in the block's relation after
    a call with a group only at a tuple of a generator of that group, so only
    for a group that lists at least one generator. *)
Theorem create_None_leaves_block (obj : node -> Custom.DieselGenerator)
    (m : Custom.Model) (b : Custom.Block) :
  Custom._create obj m None b = (b, Ok tt) /\
  forall (group : list node) (b' : Custom.Block) (res : result unit)
         (rel : gmap (node * node * node * nat) Custom.constraint)
         (n i o : node) (t : nat) (c : Custom.constraint),
    Custom._create obj m (Some group) b = (b', res) ->
    Custom.relation b' = Some rel ->
    rel !! (n, i, o, t) = Some c ->
    In n group /\ group <> [].
Proof.
  split; [reflexivity|].
  intros group b' res rel n i o t c Hrun Hrel Hc.
  rewrite create_Some_unfold in Hrun.
  destruct (for_rule_entries obj m _ _ _ _ Hrun rel (n, i, o, t) c Hrel Hc)
    as [Hin|(r & Hr & Hk)].
  - apply elem_of_visit_order in Hin. destruct Hin as (Hn & _).
    split; [exact Hn|]. intros ->. exact Hn.
  - simpl in Hr. injection Hr as <-. by rewrite lookup_empty in Hk.
Qed.

(** C1, as the code has it: for a group whose constraint expressions all
    evaluate, [_create] ends normally, and the relation of the block then
    holds exactly one constraint for each generator [n] of the group, fuel
    input bus [i], electrical output bus [o] and time step [t], and none at
    any other index; the constraint at [(n, i, o, t)] is the equality
    [(flow[i,n,t] - fuel_coeff_b * status[n,o,t]) * nominal_value(n,o)
     / fuel_coeff_a = flow[n,o,t]], which is linear in the variables. *)
Theorem create_adds_linear_equalities (obj : node -> Custom.DieselGenerator)
    (m : Custom.Model) (group : list node) (b : Custom.Block) :
  (forall n i o t, Custom.in_domain obj m group (n, i, o, t) ->
     is_Ok (Custom.relation_sides obj m n i o t)) ->
  exists rel : gmap (node * node * node * nat) Custom.constraint,
    Custom._create obj m (Some group) b =
      ({| Custom.relation := Some rel;
          Custom.relation_build :=
            Some Custom.BuildAction_input_output_relation_rule |}, Ok tt) /\
    forall n i o t,
      (Custom.in_domain obj m group (n, i, o, t) ->
       exists (nom : Q) (c : Custom.constraint),
         (Custom.flows m !! (n, o)) ≫= Custom.nominal_value = Some nom /\
         rel !! (n, i, o, t) = Some c /\
         c = Custom.CEq
               (Custom.EDiv
                  (Custom.EMul
                     (Custom.ESub
                        (Custom.EVar (Custom.flow_var i n t))
                        (Custom.EMul
                           (Custom.EConst (Custom.fuel_coeff_b (obj n)))
                           (Custom.EVar (Custom.status_var n o t))))
                     (Custom.EConst nom))
                  (Custom.EConst (Custom.fuel_coeff_a (obj n))))
               (Custom.EVar (Custom.flow_var n o t)) /\
         Custom.linear_constraint c = true /\
         forall rho : Custom.var -> Q,
           Custom.holds rho c <->
           ((rho (Custom.flow_var i n t)
             - Custom.fuel_coeff_b (obj n) * rho (Custom.status_var n o t))
            * nom / Custom.fuel_coeff_a (obj n)
            == rho (Custom.flow_var n o t))%Q) /\
      (~ Custom.in_domain obj m group (n, i, o, t) ->
       rel !! (n, i, o, t) = None).
Proof.
  intros Hok.
  destruct (for_rule_ok obj m (Custom.visit_order obj m group)
              {| Custom.relation := Some ∅;
                 Custom.relation_build :=
                   Some Custom.BuildAction_input_output_relation_rule |} ∅)
    as (rel & Hrun & Hlook); [reflexivity | |].
  { intros [[[n i] o] t] Hin. apply elem_of_visit_order in Hin.
    simpl. by apply Hok. }
  exists rel. split.
  - rewrite create_Some_unfold. exact Hrun.
  - intros n i o t. split.
    + intros Hdom. specialize (Hok n i o t Hdom).
      specialize (Hlook (n, i, o, t)).
      rewrite decide_True in Hlook by (by apply elem_of_visit_order).
      unfold Custom.constraint_at in Hlook.
      destruct (Custom.relation_sides obj m n i o t) as [[lhs rhs]|e] eqn:Hs;
        [|contradiction].
      apply relation_sides_inv in Hs as (nom & Hnom & _ & -> & ->).
      exists nom. eexists. split; [exact Hnom|]. split; [exact Hlook|].
      split; [reflexivity|]. split; [reflexivity|].
      intros rho. simpl. reflexivity.
    + intros Hdom. rewrite Hlook.
      rewrite decide_False; [apply lookup_empty|].
      by rewrite elem_of_visit_order.
Qed.

(** C9: when the constraint expression of a generator [n], fuel input [i] and
    output [o] is evaluated during constraint construction (every tuple
    visited before it evaluated) and raises, whatever the exception,
    [_create] raises [ValueError] with the message ['Error in constraint
    creation'] and the string naming the labels of [n] and [o]. *)
Theorem create_raises_ValueError (obj : node -> Custom.DieselGenerator)
    (m : Custom.Model) (group : list node) (b : Custom.Block)
    (before after : list (node * node * node * nat))
    (n i o : node) (t : nat) :
  Custom.visit_order obj m group = (before ++ (n, i, o, t) :: after)%list ->
  (forall n' i' o' t', In (n', i', o', t') before ->
     is_Ok (Custom.relation_sides obj m n' i' o' t')) ->
  ~ is_Ok (Custom.relation_sides obj m n i o t) ->
  exists b', Custom._create obj m (Some group) b =
    (b', Raise (ValueError ["Error in constraint creation";
                            "source: " ++ n ++ ", target: " ++ o])).
Proof.
  intros Hvisit Hbefore Hraise.
  rewrite create_Some_unfold, Hvisit.
  apply (for_rule_raise obj m before after (n, i, o, t) _ ∅);
    [reflexivity | | exact Hraise].
  intros [[[n' i'] o'] t'] Hin. simpl. apply Hbefore. by apply list_elem_of_In.
Qed.

(** A flat fitted curve ([fuel_coeff_a = 0]): the tuple of the generator is
    visited, the division fails, [_create] raises, and the relation holds no
    constraint, neither at that tuple nor anywhere else. *)
Lemma create_flat_curve_adds_nothing :
  Custom.in_domain Examples.obj_flat Examples.model ["genset"]
    ("genset", "diesel", "electricity", 0%nat) /\
  Custom._create Examples.obj_flat Examples.model (Some ["genset"])
    Examples.empty_block =
    ({| Custom.relation := Some ∅;
        Custom.relation_build :=
          Some Custom.BuildAction_input_output_relation_rule |},
     Raise (ValueError ["Error in constraint creation";
                        "source: genset, target: electricity"])) /\
  (∅ : gmap (node * node * node * nat) Custom.constraint)
    !! ("genset", "diesel", "electricity", 0%nat) = None.
Proof.
  split; [|split].
  - simpl. tauto.
  - vm_compute. reflexivity.
  - apply lookup_empty.
Qed.

Lemma create_adds_linear_equalities_witness :
  (forall n i o t,
     Custom.in_domain Examples.obj_sloped Examples.model ["genset"] (n, i, o, t) ->
     is_Ok (Custom.relation_sides Examples.obj_sloped Examples.model n i o t)) /\
  exists rel : gmap (node * node * node * nat) Custom.constraint,
    Custom._create Examples.obj_sloped Examples.model (Some ["genset"])
      Examples.empty_block =
      ({| Custom.relation := Some rel;
          Custom.relation_build :=
            Some Custom.BuildAction_input_output_relation_rule |}, Ok tt) /\
    rel !! ("genset", "diesel", "electricity", 1%nat) =
      Some (Custom.CEq
              (Custom.EDiv
                 (Custom.EMul
                    (Custom.ESub
                       (Custom.EVar (Custom.flow_var "diesel" "genset" 1))
                       (Custom.EMul (Custom.EConst (200 # 1))
                          (Custom.EVar (Custom.status_var "genset" "electricity" 1))))
                    (Custom.EConst (100 # 1)))
                 (Custom.EConst (100 # 1)))
              (Custom.EVar (Custom.flow_var "genset" "electricity" 1))).
Proof.
  assert (Hok : forall n i o t,
     Custom.in_domain Examples.obj_sloped Examples.model ["genset"] (n, i, o, t) ->
     is_Ok (Custom.relation_sides Examples.obj_sloped Examples.model n i o t)).
  { intros n i o t (Hn & Hi & Ho & Ht). simpl in Hn, Hi, Ho, Ht.
    destruct Hn as [<-|[]]. destruct Hi as [<-|[]]. destruct Ho as [<-|[]].
    destruct Ht as [<-|[<-|[]]]; vm_compute; exact I. }
  split; [exact Hok|].
  destruct (create_adds_linear_equalities Examples.obj_sloped Examples.model
              ["genset"] Examples.empty_block Hok) as (rel & Hrun & Hrel).
  exists rel. split; [exact Hrun|].
  destruct (Hrel "genset" "diesel" "electricity" 1%nat) as (Hin & _).
  destruct Hin as (nom & c & Hnom & Hc & -> & _).
  { simpl. tauto. }
  vm_compute in Hnom. injection Hnom as <-. exact Hc.
Defined.

Lemma create_raises_ValueError_witness :
  exists b', Custom._create Examples.obj_flat Examples.model (Some ["genset"])
    Examples.empty_block =
    (b', Raise (ValueError ["Error in constraint creation";
                            "source: genset, target: electricity"])).
Proof.
  apply (create_raises_ValueError Examples.obj_flat Examples.model ["genset"]
           Examples.empty_block []
           [("genset", "diesel", "electricity", 1%nat)]
           "genset" "diesel" "electricity" 0%nat).
  - reflexivity.
  - intros n' i' o' t' [].
  - intros H. vm_compute in H. exact H.
Defined.


Section LeastSquares.

Import Custom.

Local Open Scope Q_scope.

Lemma sse_proper (pts : list (Q * Q)) (a b a0 b0 : Q) :
  a == a0 -> b == b0 -> sse pts a b == sse pts a0 b0.
Proof.
  intros Ha Hb. induction pts as [|[x y] pts IH]; simpl.
  - reflexivity.
  - rewrite IH, Ha, Hb. reflexivity.
Qed.

Lemma Qsquare_nonneg (u : Q) : 0 <= u * u.
Proof. unfold Qle, Qmult. simpl. nia. Qed.

Lemma sse_nonneg (pts : list (Q * Q)) (a b : Q) : 0 <= sse pts a b.
Proof.
  induction pts as [|[x y] pts IH]; simpl.
  - apply Qle_refl.
  - pose proof (Qsquare_nonneg (a * x + b - y)). lra.
Qed.

Lemma count_cons (p : Q * Q) (pts : list (Q * Q)) :
  inject_Z (Z.of_nat (length (p :: pts))) ==
  inject_Z (Z.of_nat (length pts)) + 1.
Proof.
  cbn [length]. rewrite Nat2Z.inj_succ, <- Z.add_1_r, inject_Z_plus.
  reflexivity.
Qed.

(** The squared error at [(a', b')] is the squared error at [(a, b)], plus
    the squared differences of the two lines, plus the two residual sums of
    the normal equations weighted by the differences of the coefficients. *)
Lemma sse_expand (pts : list (Q * Q)) (a b a' b' : Q) :
  sse pts a' b' ==
  sse pts a b
  + sse (map (fun p => (fst p, 0)) pts) (a' - a) (b' - b)
  + 2 * (a' - a) * (a * Qsum (map (fun p => fst p * fst p) pts)
                    + b * Qsum (map fst pts)
                    - Qsum (map (fun p => fst p * snd p) pts))
  + 2 * (b' - b) * (a * Qsum (map fst pts)
                    + b * inject_Z (Z.of_nat (length pts))
                    - Qsum (map snd pts)).
Proof.
  induction pts as [|[x y] pts IH].
  - simpl. ring.
  - rewrite count_cons. unfold Qsum in *. cbn [sse map fold_right fst snd].
    rewrite IH. ring.
Qed.

Lemma normal_equations_fit_least_squares (xs ys : list Q) (a b : Q) :
  normal_equations_fit xs ys = Ok (a, b) ->
  least_squares_fit (combine xs ys) a b.
Proof.
  unfold normal_equations_fit.
  set (pts := combine xs ys).
  set (n := inject_Z (Z.of_nat (length pts))).
  set (sx := Qsum (map fst pts)). set (sy := Qsum (map snd pts)).
  set (sxx := Qsum (map (fun p => fst p * fst p) pts)).
  set (sxy := Qsum (map (fun p => fst p * snd p) pts)).
  destruct (Qeq_bool (n * sxx - sx * sx) 0) eqn:Hd; [discriminate|].
  intros [= <- <-] a' b'.
  assert (Hd' : ~ n * sxx - sx * sx == 0).
  { intros H. apply Qeq_bool_iff in H. congruence. }
  assert (Hn : ~ n == 0).
  { intros H. apply Hd'. unfold n in H.
    destruct pts as [|p pts'] eqn:Hp.
    - unfold sx, sxx, n. simpl. reflexivity.
    - exfalso. simpl in H. unfold inject_Z, Qeq in H. simpl in H. lia. }
  set (a0 := (n * sxy - sx * sy) / (n * sxx - sx * sx)).
  set (b0 := (sy - a0 * sx) / n).
  rewrite (sse_proper pts (Qred a0) (Qred b0) a0 b0) by apply Qred_correct.
  rewrite (sse_expand pts a0 b0 a' b').
  fold n sx sy sxx sxy.
  assert (E1 : a0 * sxx + b0 * sx - sxy == 0).
  { unfold b0, a0. field. split; assumption. }
  assert (E2 : a0 * sx + b0 * n - sy == 0).
  { unfold b0, a0. field. split; assumption. }
  rewrite E1, E2.
  pose proof (sse_nonneg (map (fun p => (fst p, 0)) pts) (a' - a0) (b' - b0)).
  lra.
Qed.

End LeastSquares.

Section InitFacts.

Import Custom.

Variable Transformer__init__ : node -> kwargs -> M World unit.
Variable polyfit : list Q -> list Q -> result (Q * Q).

Lemma dict_copy {K V : Type} (d : dict K V) :
  map (fun kv => (fst kv, snd kv)) d = d.
Proof. induction d as [|[k v] d IH]; simpl; [|rewrite IH]; reflexivity. Qed.

(** What has happened when [__init__] returns. *)
Lemma init_inv (self : node) (fc : dict Q Q) (kw : kwargs) (w w' : World)
    (g : DieselGenerator) :
  __init__ Transformer__init__ polyfit self fc kw w = (w', Ok g) ->
  exists w1 fuel_bus fuel_flow rest eo z,
    Transformer__init__ self kw w = (w1, Ok tt) /\
    kw_fuel_input kw = Some ((fuel_bus, fuel_flow) :: rest) /\
    kw_electrical_output kw = Some eo /\
    polyfit (sorted Qle_bool (map py_float (keys fc)))
            (map inject_Z (sorted Z.leb (map py_int (values fc)))) = Ok z /\
    w' = outputs_update self eo
           (outputs_update fuel_bus [(self, fuel_flow)] w1) /\
    g = {| fuel_input := (fuel_bus, fuel_flow) :: rest;
           electrical_output := eo;
           fuel_curve := fc;
           fuel_coeff_a := fst z;
           fuel_coeff_b := snd z |}.
Proof.
  unfold __init__, mbind', lift, modify, ret, raise. rewrite dict_copy.
  destruct (Transformer__init__ self kw w) as [w1 [[]|e]]; [|discriminate].
  destruct (kw_fuel_input kw) as [[|[fuel_bus fuel_flow] rest]|];
    simpl; try discriminate.
  destruct (kw_electrical_output kw) as [eo|]; [|discriminate].
  destruct (polyfit _ _) as [z|e] eqn:Hz; [|discriminate].
  intros [= <- <-]. exists w1, fuel_bus, fuel_flow, rest, eo, z.
  repeat split; assumption.
Qed.

(** [__init__] returns whenever the two dictionaries are given, the fuel
    input is not empty, and the initialiser of the base class and the fit
    return. *)
Lemma init_returns (self : node) (fc : dict Q Q) (w w1 : World)
    (fuel_bus : node) (fuel_flow : Flow) (rest eo : dict node Flow) (z : Q * Q) :
  let kw := {| kw_fuel_input := Some ((fuel_bus, fuel_flow) :: rest);
               kw_electrical_output := Some eo |} in
  Transformer__init__ self kw w = (w1, Ok tt) ->
  polyfit (sorted Qle_bool (map py_float (keys fc)))
          (map inject_Z (sorted Z.leb (map py_int (values fc)))) = Ok z ->
  exists w' g, __init__ Transformer__init__ polyfit self fc kw w = (w', Ok g).
Proof.
  intros kw HT Hz. unfold __init__, mbind', lift, modify, ret.
  rewrite dict_copy, HT. simpl. rewrite Hz. eauto.
Qed.

Lemma foldl_insert_fresh (d : dict node Flow) :
  forall (acc : gmap node Flow) (k : node),
    k ∉ keys d ->
    foldl (fun acc kv => <[fst kv := snd kv]> acc) acc d !! k = acc !! k.
Proof.
  induction d as [|[k0 v0] d IH]; intros acc k Hk; simpl; [reflexivity|].
  simpl in Hk. apply not_elem_of_cons in Hk as [Hne Hk].
  rewrite IH by exact Hk. by rewrite lookup_insert_ne.
Qed.

Lemma foldl_insert_lookup (d : dict node Flow) :
  forall (acc : gmap node Flow) (k : node) (v : Flow),
    NoDup (keys d) -> (k, v) ∈ d ->
    foldl (fun acc kv => <[fst kv := snd kv]> acc) acc d !! k = Some v.
Proof.
  induction d as [|[k0 v0] d IH]; intros acc k v Hnd Hin; simpl.
  - by apply elem_of_nil in Hin.
  - simpl in Hnd. apply NoDup_cons in Hnd as [Hk0 Hnd].
    apply elem_of_cons in Hin as [[= -> ->]|Hin].
    + rewrite foldl_insert_fresh by exact Hk0. apply lookup_insert_eq.
    + by apply IH.
Qed.

Lemma outputs_update_same (n : node) (d : dict node Flow) (w : World) :
  outputs (outputs_update n d w) n =
  foldl (fun acc kv => <[fst kv := snd kv]> acc) (outputs w n) d.
Proof. unfold outputs at 1, outputs_update. by rewrite lookup_insert_eq. Qed.

Lemma outputs_update_other (n n' : node) (d : dict node Flow) (w : World) :
  n <> n' -> outputs (outputs_update n d w) n' = outputs w n'.
Proof.
  intros Hne. unfold outputs, outputs_update. by rewrite lookup_insert_ne.
Qed.

(** What the code fits: the sorted keys paired, position by position, with
    the sorted truncated values. *)
Lemma init_fits_sorted_columns (self : node) (fc : dict Q Q) (kw : kwargs)
    (w w' : World) (g : DieselGenerator) :
  (forall xs ys a b, polyfit xs ys = Ok (a, b) ->
     least_squares_fit (combine xs ys) a b) ->
  __init__ Transformer__init__ polyfit self fc kw w = (w', Ok g) ->
  least_squares_fit
    (combine (sorted Qle_bool (map py_float (keys fc)))
             (map inject_Z (sorted Z.leb (map py_int (values fc)))))
    (fuel_coeff_a g) (fuel_coeff_b g).
Proof.
  intros Hfit Hrun.
  apply init_inv in Hrun
    as (w1 & fb & ff & rest & eo & [a b] & _ & _ & _ & Hz & _ & ->).
  simpl. by apply Hfit.
Qed.

End InitFacts.

(** C5: when [__init__] returns for a new generator (one that is not its own
    fuel bus), the outputs of the first bus of [fuel_input] map the generator
    to the first fuel flow, and the outputs of the generator map every bus of
    [electrical_output] to its flow ([electrical_output] is a dictionary, so
    its keys are distinct). *)
Theorem init_wires_flows
    (Transformer__init__ : node -> Custom.kwargs -> M Custom.World unit)
    (polyfit : list Q -> list Q -> result (Q * Q))
    (self : node) (fuel_curve : dict Q Q)
    (fuel_bus : node) (fuel_flow : Custom.Flow)
    (rest electrical_output : dict node Custom.Flow)
    (w w' : Custom.World) (g : Custom.DieselGenerator) :
  self <> fuel_bus ->
  NoDup (keys electrical_output) ->
  Custom.__init__ Transformer__init__ polyfit self fuel_curve
    {| Custom.kw_fuel_input := Some ((fuel_bus, fuel_flow) :: rest);
       Custom.kw_electrical_output := Some electrical_output |} w = (w', Ok g) ->
  Custom.outputs w' fuel_bus !! self = Some fuel_flow /\
  forall (bus : node) (fl : Custom.Flow),
    (bus, fl) ∈ electrical_output -> Custom.outputs w' self !! bus = Some fl.
Proof.
  intros Hfresh Hnd Hrun.
  apply init_inv in Hrun
    as (w1 & fb & ff & rest' & eo & z & _ & Hfi & Heo & _ & -> & _).
  simpl in Hfi, Heo. injection Hfi as <- <- <-. injection Heo as <-.
  split.
  - rewrite outputs_update_other by exact Hfresh.
    rewrite outputs_update_same. simpl. apply lookup_insert_eq.
  - intros bus fl Hin. rewrite outputs_update_same.
    by apply foldl_insert_lookup.
Qed.

Lemma init_wires_flows_witness :
  Custom.outputs Examples.genset_world "diesel" !! "genset" =
    Some Examples.diesel_flow /\
  forall (bus : node) (fl : Custom.Flow),
    (bus, fl) ∈ [("electricity", Examples.el_flow)] ->
    Custom.outputs Examples.genset_world "genset" !! bus = Some fl.
Proof.
  apply (init_wires_flows Examples.Transformer__init__
           Custom.normal_equations_fit "genset" Examples.fuel_curve_falling
           "diesel" Examples.diesel_flow [] [("electricity", Examples.el_flow)]
           ∅ Examples.genset_world Examples.genset_fitted).
  - discriminate.
  - apply NoDup_singleton.
  - vm_compute. reflexivity.
Defined.

Section FuelCurve.

Import Custom.

Local Open Scope Q_scope.

Lemma Qsquare_zero (u v : Q) : u * u + v * v <= 0 -> u == 0 /\ v == 0.
Proof.
  intros H. pose proof (Qsquare_nonneg u). pose proof (Qsquare_nonneg v).
  assert (Hu : u * u == 0) by lra. assert (Hv : v * v == 0) by lra.
  split.
  - destruct (Qmult_integral _ _ Hu); assumption.
  - destruct (Qmult_integral _ _ Hv); assumption.
Qed.

End FuelCurve.

(** C2, evaluated on a curve that falls with the load, 300 at half load and
    250 at full load: for any fit routine that returns least-squares lines,
    the coefficients [__init__] stores are 100 and 200, the line through
    (1/2, 250) and (1, 300), because keys and values are sorted separately.
    The least-squares line of the curve's own pairs (1/2, 300) and (1, 250)
    has slope -100 and intercept 350, and the stored coefficients are not a
    least-squares fit of those pairs. *)
Theorem init_fits_unpaired_points
    (Transformer__init__ : node -> Custom.kwargs -> M Custom.World unit)
    (polyfit : list Q -> list Q -> result (Q * Q))
    (self : node) (kw : Custom.kwargs) (w w' : Custom.World)
    (g : Custom.DieselGenerator) :
  (forall xs ys a b, polyfit xs ys = Ok (a, b) ->
     Custom.least_squares_fit (combine xs ys) a b) ->
  Custom.__init__ Transformer__init__ polyfit self
    Examples.fuel_curve_falling kw w = (w', Ok g) ->
  (Custom.fuel_coeff_a g == 100 # 1)%Q /\
  (Custom.fuel_coeff_b g == 200 # 1)%Q /\
  Custom.least_squares_fit Examples.fuel_curve_falling (- (100 # 1)) (350 # 1) /\
  ~ Custom.least_squares_fit Examples.fuel_curve_falling
      (Custom.fuel_coeff_a g) (Custom.fuel_coeff_b g).
Proof.
  intros Hfit Hrun.
  apply init_inv in Hrun as (w1 & fb & ff & rest & eo & [a b] & _ & _ & _ & Hz & _ & ->).
  simpl. apply Hfit in Hz. 
  assert (Hab : (a == 100 # 1)%Q /\ (b == 200 # 1)%Q).
  { specialize (Hz (100 # 1) (200 # 1)). vm_compute combine in Hz.
    cbn [Custom.sse] in Hz.
    assert (H0 : (((100 # 1) * (1 # 2) + (200 # 1) - (250 # 1)) * ((100 # 1) * (1 # 2) + (200 # 1) - (250 # 1)) +
        (((100 # 1) * 1 + (200 # 1) - (300 # 1)) * ((100 # 1) * 1 + (200 # 1) - (300 # 1)) + 0) == 0)%Q) by reflexivity.
    rewrite H0 in Hz.
    destruct (Qsquare_zero (a * (1 # 2) + b - (250 # 1)) (a * 1 + b - (300 # 1))) as [Hu Hv].
    { lra. }
    split; lra. }
  destruct Hab as [Ha Hb].
  split; [exact Ha|]. split; [exact Hb|]. split.
  - intros a' b'. eapply Qle_trans; [|apply sse_nonneg]. vm_compute. discriminate.
  - intros Hls. specialize (Hls (- (100 # 1))%Q (350 # 1)).
    rewrite (sse_proper _ a b (100 # 1) (200 # 1) Ha Hb) in Hls.
    vm_compute in Hls. apply Hls. reflexivity.
Qed.

Lemma init_fits_unpaired_points_witness :
  Custom.__init__ Examples.Transformer__init__ Custom.normal_equations_fit
    "genset" Examples.fuel_curve_falling Examples.genset_kwargs ∅ =
    (Examples.genset_world, Ok Examples.genset_fitted) /\
  ~ Custom.least_squares_fit Examples.fuel_curve_falling (100 # 1) (200 # 1).
Proof.
  assert (Hrun : Custom.__init__ Examples.Transformer__init__
                   Custom.normal_equations_fit "genset"
                   Examples.fuel_curve_falling Examples.genset_kwargs ∅ =
                 (Examples.genset_world, Ok Examples.genset_fitted))
    by (vm_compute; reflexivity).
  split; [exact Hrun|].
  exact (proj2 (proj2 (proj2
    (init_fits_unpaired_points _ _ _ _ _ _ _
       normal_equations_fit_least_squares Hrun)))).
Defined.

(** ** The columns of a [ViewPlot] *)

Section PlotFacts.

Import Plot.

Lemma flow_entry_is_target (node0 : node) (c : col) :
  flow_entry_is 1 node0 c = true <-> has_target node0 c.
Proof.
  unfold flow_entry_is, has_target, flow_tuple.
  destruct c as [[|s [|t rest]] name]; simpl.
  - split; [discriminate | intros [? ?]; discriminate].
  - split; [discriminate | intros [? ?]; discriminate].
  - rewrite bool_decide_eq_true. split.
    + intros [= ->]. by exists s.
    + intros [s' [= _ ->]]. reflexivity.
Qed.

Lemma flow_entry_is_source (node0 : node) (c : col) :
  flow_entry_is 0 node0 c = true <-> has_source node0 c.
Proof.
  unfold flow_entry_is, has_source, flow_tuple.
  destruct c as [[|s [|t rest]] name]; simpl.
  - split; [discriminate | intros [? ?]; discriminate].
  - split; [discriminate | intros [? ?]; discriminate].
  - rewrite bool_decide_eq_true. split.
    + intros [= ->]. by exists t.
    + intros [t' [= -> _]]. reflexivity.
Qed.

(** A label whose [c[0]] has a single entry names no flow: the guard
    [len(c[0]) > 1] keeps it out of both lists. *)
Lemma flow_entry_is_short (k : nat) (node0 : node) (entry : option node)
    (name : string) :
  flow_entry_is k node0 ([entry], name) = false /\
  ~ has_target node0 ([entry], name) /\ ~ has_source node0 ([entry], name).
Proof.
  split; [reflexivity|]. split; intros [x Hx]; discriminate.
Qed.

End PlotFacts.

(** C6: [update_node] sets [in_cols] to the columns of the node's sequences
    whose flow tuple has the node as target (second entry), [out_cols] to
    those whose flow tuple has the node as source (first entry), both in the
    order of the table, makes the sequences table the subset, and removes the
    entries ['labels'] and ['handles'] from [legend_kwargs], leaving the
    other entries as they were.  The flow tuple of a column is the pair of
    the first two entries of [c[0]]; a column whose [c[0]] is shorter has
    none and goes to neither list.  The sequences are those that
    [views.node] returns for the node. *)
Theorem update_node_columns (Results : Type)
    (views_node : Results -> node -> result (gmap string Plot.DataFrame))
    (self : Plot.ViewPlot Results) (node0 : node)
    (filtered : gmap string Plot.DataFrame) (sequences : Plot.DataFrame) :
  views_node (Plot.results self) node0 = Ok filtered ->
  filtered !! "sequences" = Some sequences ->
  exists self' : Plot.ViewPlot Results,
    Plot.update_node views_node node0 self = (self', Ok tt) /\
    Plot.in_cols self' =
      Some (filter (Plot.has_target node0) (Plot.columns sequences)) /\
    Plot.out_cols self' =
      Some (filter (Plot.has_source node0) (Plot.columns sequences)) /\
    Plot.seq self' = sequences /\
    Plot.subset self' = sequences /\
    Plot.legend_kwargs self' !! "labels" = None /\
    Plot.legend_kwargs self' !! "handles" = None /\
    forall k : string, k <> "labels" -> k <> "handles" ->
      Plot.legend_kwargs self' !! k = Plot.legend_kwargs self !! k.
Proof.
  intros Hview Hseq. unfold Plot.update_node. rewrite Hview. simpl.
  rewrite Hseq. simpl. eexists. split; [reflexivity|]. simpl.
  split; [|split; [|split; [|split; [|split; [|split]]]]].
  - f_equal. apply list_filter_iff. intros c. apply flow_entry_is_target.
  - f_equal. apply list_filter_iff. intros c. apply flow_entry_is_source.
  - reflexivity.
  - reflexivity.
  - rewrite lookup_delete_ne by done. apply lookup_delete_eq.
  - apply lookup_delete_eq.
  - intros k Hl Hh. by rewrite !lookup_delete_ne.
Qed.

Lemma update_node_columns_witness :
  exists self' : Plot.ViewPlot unit,
    Plot.update_node PlotExamples.views_node "genset" PlotExamples.view =
      (self', Ok tt) /\
    Plot.in_cols self' = Some [PlotExamples.inflow] /\
    Plot.out_cols self' = Some [PlotExamples.outflow; PlotExamples.own_status] /\
    Plot.subset self' = PlotExamples.sequences /\
    Plot.legend_kwargs self' !! "labels" = None.
Proof.
  destruct (update_node_columns unit PlotExamples.views_node PlotExamples.view
              "genset" {[ "sequences" := PlotExamples.sequences ]}
              PlotExamples.sequences eq_refl eq_refl)
    as (self' & Hrun & Hin & Hout & _ & Hsub & Hlab & _).
  exists self'. split; [exact Hrun|].
  split; [rewrite Hin; vm_compute; reflexivity|].
  split; [rewrite Hout; vm_compute; reflexivity|].
  split; [exact Hsub | exact Hlab].
Defined.

Section SelectFacts.

Import Plot.

Lemma select_series (df : DataFrame) (labels : list col) :
  (forall l, l ∈ labels -> l ∈ columns df) ->
  select df labels =
  Ok {| index := index df;
        series := flat_map (fun l => filter (fun s => fst s = l) (series df))
                    labels |}.
Proof.
  intros Hall. unfold select.
  replace (forallb (fun l => bool_decide (l ∈ columns df)) labels) with true;
    [reflexivity|].
  symmetry. apply forallb_forall. intros l Hl.
  apply bool_decide_eq_true. apply Hall. by apply list_elem_of_In.
Qed.

Lemma filter_label_absent (ss : list (col * list Q)) (l : col) :
  l ∉ map fst ss -> filter (fun s : col * list Q => fst s = l) ss = [].
Proof.
  induction ss as [|[c d] ss IH]; simpl; intros Hl; [reflexivity|].
  apply not_elem_of_cons in Hl as [Hne Hl].
  rewrite filter_cons_False by (simpl; congruence). by apply IH.
Qed.

(** With distinct column labels, selecting one label yields one column. *)
Lemma columns_filter_label (ss : list (col * list Q)) (l : col) :
  NoDup (map fst ss) -> l ∈ map fst ss ->
  map fst (filter (fun s : col * list Q => fst s = l) ss) = [l].
Proof.
  induction ss as [|[c d] ss IH]; simpl; intros Hnd Hin.
  - by apply elem_of_nil in Hin.
  - apply NoDup_cons in Hnd as [Hc Hnd].
    destruct (decide (c = l)) as [->|Hne].
    + rewrite filter_cons_True by reflexivity.
      rewrite filter_label_absent by exact Hc. reflexivity.
    + rewrite filter_cons_False by (simpl; congruence).
      apply IH; [exact Hnd|]. apply elem_of_cons in Hin as [->|Hin]; done.
Qed.

Lemma columns_select_distinct (ss : list (col * list Q)) (labels : list col) :
  NoDup (map fst ss) -> (forall l, l ∈ labels -> l ∈ map fst ss) ->
  map fst (flat_map (fun l => filter (fun s : col * list Q => fst s = l) ss)
             labels) = labels.
Proof.
  intros Hnd. induction labels as [|l labels IH]; intros Hall; simpl.
  - reflexivity.
  - rewrite map_app, columns_filter_label; [|exact Hnd|apply Hall; by left].
    simpl. f_equal. apply IH. intros l' Hl'. apply Hall. by right.
Qed.

Lemma elem_of_select (ss : list (col * list Q)) (labels : list col)
    (s : col * list Q) :
  s ∈ flat_map (fun l => filter (fun s : col * list Q => fst s = l) ss) labels
  <-> s ∈ ss /\ fst s ∈ labels.
Proof.
  rewrite list_elem_of_In, in_flat_map. split.
  - intros (l & Hl & Hs). apply list_elem_of_In, list_elem_of_filter in Hs
      as [<- Hs]. split; [exact Hs | by apply list_elem_of_In].
  - intros [Hs Hl]. exists (fst s). split; [by apply list_elem_of_In|].
    apply list_elem_of_In, list_elem_of_filter. split; [reflexivity | exact Hs].
Qed.

End SelectFacts.

(** C7: [rearrange_subset] returns the table restricted to the elements of
    [order] that are among its columns: a column is kept exactly when its
    label is in [order], the labels of the result are those elements of
    [order] in the order of the [order] list (column labels of a table being
    distinct), and a column absent from [order] is dropped; a warning is
    logged exactly when some column is dropped; the [subset] attribute
    becomes the result when no table was passed and is left alone when one
    was. *)
Theorem rearrange_subset_restricts (Results : Type)
    (self : Plot.ViewPlot Results) (log : list Plot.log_record)
    (order : list (list (option node) * string)) (df : option Plot.DataFrame) :
  let table := match df with None => Plot.subset self | Some d => d end in
  let missing := filter (fun x => x ∉ order) (Plot.columns table) in
  exists (sub : Plot.DataFrame) (self' : Plot.ViewPlot Results)
         (log' : list Plot.log_record),
    Plot.rearrange_subset order df (self, log) = ((self', log'), Ok sub) /\
    Plot.index sub = Plot.index table /\
    (forall s, s ∈ Plot.series sub <->
               s ∈ Plot.series table /\ fst s ∈ order) /\
    (NoDup (Plot.columns table) ->
     Plot.columns sub =
       filter (fun x => x ∈ Plot.columns table) order) /\
    (forall c, c ∈ Plot.columns table -> c ∉ order ->
               c ∉ Plot.columns sub) /\
    (missing = [] -> log' = log) /\
    (missing <> [] ->
     log' = (log ++ [Plot.Warning
               "Columns that are not part of the order list are removed: "
               missing])%list) /\
    (df = None -> self' = Plot.set_subset sub self) /\
    (df <> None -> self' = self).
Proof.
  intros table missing.
  set (neworder := filter (fun x => x ∈ Plot.columns table) order).
  assert (Hsel : Plot.select table neworder =
    Ok {| Plot.index := Plot.index table;
          Plot.series := flat_map
            (fun l => filter (fun s : _ * list Q => fst s = l) (Plot.series table))
            neworder |}).
  { apply select_series. intros l Hl.
    by apply list_elem_of_filter in Hl as [Hl _]. }
  eexists _, (match df with None => _ | Some _ => self end),
    (if (0 <? length missing)%nat then _ else log).
  split.
  { unfold Plot.rearrange_subset. destruct df as [d|]; simpl;
      fold table; fold neworder; fold missing; rewrite Hsel; reflexivity. }
  simpl.
  assert (Hser : forall s,
    s ∈ flat_map (fun l => filter (fun s : _ * list Q => fst s = l)
                             (Plot.series table)) neworder
    <-> s ∈ Plot.series table /\ fst s ∈ order).
  { intros s. rewrite elem_of_select. unfold neworder.
    rewrite list_elem_of_filter. split; [tauto|]. intros [Hs Ho].
    split; [exact Hs|]. split; [|exact Ho].
    unfold Plot.columns. apply list_elem_of_fmap. by exists s. }
  split; [reflexivity|]. split; [exact Hser|]. split; [|split].
  - intros Hnd. unfold Plot.columns at 1. simpl.
    apply columns_select_distinct; [exact Hnd|].
    intros l Hl. by apply list_elem_of_filter in Hl as [Hl _].
  - intros c Hc Hno Hin. unfold Plot.columns in Hin. simpl in Hin.
    apply list_elem_of_fmap in Hin as (s & -> & Hs).
    apply Hser in Hs as [_ Hs]. contradiction.
  - split; [|split; [|split]].
    + intros ->. reflexivity.
    + intros Hne. destruct missing; [contradiction | reflexivity].
    + intros ->. reflexivity.
    + intros Hne. destruct df; [reflexivity | contradiction].
Qed.

Lemma rearrange_subset_restricts_witness :
  exists (sub : Plot.DataFrame) (self' : Plot.ViewPlot unit),
    Plot.rearrange_subset
      [PlotExamples.outflow; PlotExamples.wind; PlotExamples.inflow] None
      (PlotExamples.genset_view, []) =
      ((self', [Plot.Warning
                  "Columns that are not part of the order list are removed: "
                  [PlotExamples.own_status]]), Ok sub) /\
    Plot.columns sub = [PlotExamples.outflow; PlotExamples.inflow] /\
    Plot.subset self' = sub.
Proof.
  destruct (rearrange_subset_restricts unit PlotExamples.genset_view []
              [PlotExamples.outflow; PlotExamples.wind; PlotExamples.inflow]
              None)
    as (sub & self' & log' & Hrun & _ & _ & Hcols & _ & _ & Hlog & Hself & _).
  exists sub, self'. split; [|split].
  - rewrite Hrun. rewrite Hlog by (vm_compute; discriminate).
    simpl. reflexivity.
  - rewrite Hcols; [vm_compute; reflexivity|].
    vm_compute. repeat constructor; rewrite ?elem_of_cons, ?elem_of_nil;
      intuition discriminate.
  - rewrite Hself by reflexivity. reflexivity.
Defined.

(** C8: [color_from_dict] maps each column of the table to its colour in the
    dictionary, or to ['#ff00f0'] when the dictionary has no entry for it;
    for a table with exactly one column the result is that colour itself,
    otherwise (two or more columns, or none) it is the list of the colours in
    column order. *)
Theorem color_from_dict_colors (Results : Type) (self : Plot.ViewPlot Results)
    (colordict : gmap (list (option node) * string) string)
    (df : option Plot.DataFrame) :
  let table := match df with None => Plot.subset self | Some d => d end in
  let color := fun c =>
    match colordict !! c with Some v => v | None => "#ff00f0" end in
  (forall c, Plot.columns table = [c] ->
     Plot.color_from_dict self colordict df = Plot.Color (color c)) /\
  (2 <= length (Plot.columns table) ->
     Plot.color_from_dict self colordict df =
       Plot.ColorList (map color (Plot.columns table))) /\
  (Plot.columns table = [] ->
     Plot.color_from_dict self colordict df = Plot.ColorList []).
Proof.
  intros table color. unfold Plot.color_from_dict. fold table.
  rewrite map_map. fold color. split; [|split].
  - intros c ->. reflexivity.
  - intros Hlen. destruct (Plot.columns table) as [|c1 [|c2 cols]];
      simpl in *; try lia. reflexivity.
  - intros ->. reflexivity.
Qed.

Lemma color_from_dict_colors_witness :
  Plot.color_from_dict PlotExamples.genset_view PlotExamples.colordict
    (Some PlotExamples.inflow_only) = Plot.Color "#555555" /\
  Plot.color_from_dict PlotExamples.genset_view PlotExamples.colordict None =
    Plot.ColorList ["#555555"; "#00bfff"; "#ff00f0"].
Proof.
  destruct (color_from_dict_colors unit PlotExamples.genset_view
              PlotExamples.colordict (Some PlotExamples.inflow_only))
    as (Hone & _ & _).
  destruct (color_from_dict_colors unit PlotExamples.genset_view
              PlotExamples.colordict None) as (_ & Hmany & _).
  split.
  - rewrite (Hone PlotExamples.inflow eq_refl). vm_compute. reflexivity.
  - rewrite Hmany by (simpl; lia). vm_compute. reflexivity.
Defined.

(** * Further properties of the constraint block *)

(** X1: the constraint expression of [(n, i, o, t)] evaluates exactly when
    the model has the variables [flow[i,n,t]] and [flow[n,o,t]], has the
    block of non-convex flows with the variable [status[n,o,t]], the flow
    object of the edge [(n, o)] has a nominal value, and [fuel_coeff_a] of
    the generator is not zero. *)
Theorem relation_expression_evaluates_iff
    (obj : node -> Custom.DieselGenerator) (m : Custom.Model)
    (n i o : node) (t : nat) :
  is_Ok (Custom.relation_sides obj m n i o t) <->
  (i, n, t) ∈ Custom.flow m /\ (n, o, t) ∈ Custom.flow m /\
  (exists nc, Custom.NonConvexFlow m = Some nc /\ (n, o, t) ∈ Custom.status nc) /\
  (exists nom, (Custom.flows m !! (n, o)) ≫= Custom.nominal_value = Some nom) /\
  ~ (Custom.fuel_coeff_a (obj n) == 0)%Q.
Proof.
  split.
  - intros Hok. apply relation_sides_ok_iff in Hok. exact Hok.
  - intros (Hin & Hout & Hstatus & Hnom & Hslope).
    apply relation_sides_ok_iff. repeat split; assumption.
Qed.

(** X2: whatever [_create] raises for a group is the [ValueError] of the
    [except] clause, for a visited tuple whose expression does not evaluate;
    no other exception leaves it. *)
Theorem create_raises_only_creation_error
    (obj : node -> Custom.DieselGenerator) (m : Custom.Model)
    (group : list node) (b b' : Custom.Block) (e : exn) :
  Custom._create obj m (Some group) b = (b', Raise e) ->
  exists n i o t,
    Custom.in_domain obj m group (n, i, o, t) /\
    ~ is_Ok (Custom.relation_sides obj m n i o t) /\
    e = ValueError ["Error in constraint creation";
                    "source: " ++ n ++ ", target: " ++ o].
Proof.
  intros Hrun.
  destruct (create_raise_inv obj m group b b' e Hrun)
    as (n & i & o & t & Hdom & Hno & ->).
  exists n, i, o, t. split; [exact Hdom|]. split; [exact Hno | reflexivity].
Qed.

Lemma create_raises_only_creation_error_witness :
  exists n i o t,
    Custom.in_domain Examples.obj_flat Examples.model ["genset"] (n, i, o, t) /\
    ~ is_Ok (Custom.relation_sides Examples.obj_flat Examples.model n i o t) /\
    ValueError ["Error in constraint creation";
                "source: genset, target: electricity"] =
    ValueError ["Error in constraint creation";
                "source: " ++ n ++ ", target: " ++ o].
Proof.
  apply (create_raises_only_creation_error Examples.obj_flat Examples.model
           ["genset"] Examples.empty_block
           {| Custom.relation := Some ∅;
              Custom.relation_build :=
                Some Custom.BuildAction_input_output_relation_rule |}).
  vm_compute. reflexivity.
Defined.

Section MoreBlockFacts.

Import Custom.

Variable obj : node -> DieselGenerator.
Variable m : Model.

(** The loop up to its first failing tuple: the constraints of the tuples
    before it are in the relation when the exception leaves the loop. *)
Lemma for_rule_raise_state (before after : list index) (idx : index)
    (b : Block) (r : gmap index constraint) :
  relation b = Some r ->
  (forall k, k ∈ before ->
     is_Ok (relation_sides obj m k.1.1.1 k.1.1.2 k.1.2 k.2)) ->
  ~ is_Ok (relation_sides obj m idx.1.1.1 idx.1.1.2 idx.1.2 idx.2) ->
  exists r',
    for_ (before ++ idx :: after)%list (rule_body obj m) b =
      (set_relation (Some r') b, Raise (creation_error idx.1.1.1 idx.1.2)) /\
    forall k, r' !! k =
      if decide (k ∈ before) then constraint_at obj m k else r !! k.
Proof.
  intros Hr Hok Hno.
  destruct (for_rule_ok obj m before b r Hr Hok) as (r' & Hrun & Hlook).
  exists r'. split; [|exact Hlook].
  rewrite for_app. unfold mbind' at 1. rewrite Hrun.
  simpl. unfold mbind'. rewrite rule_body_raise by exact Hno. reflexivity.
Qed.

Lemma visit_order_no_timesteps (group : list node) :
  TIMESTEPS m = [] -> visit_order obj m group = [].
Proof.
  intros Ht. unfold visit_order. rewrite Ht.
  induction group as [|n g IH]; [reflexivity|].
  rewrite bind_cons, IH. reflexivity.
Qed.

End MoreBlockFacts.

(** X3: when [_create] raises, the constraints built before the failing
    tuple stay in the block: the relation then holds the constraint of every
    tuple visited before the failing one and nothing else, and the build
    action stays attached. *)
Theorem create_keeps_earlier_constraints
    (obj : node -> Custom.DieselGenerator) (m : Custom.Model)
    (group : list node) (b : Custom.Block)
    (before after : list (node * node * node * nat))
    (n i o : node) (t : nat) :
  Custom.visit_order obj m group = (before ++ (n, i, o, t) :: after)%list ->
  (forall n' i' o' t', In (n', i', o', t') before ->
     is_Ok (Custom.relation_sides obj m n' i' o' t')) ->
  ~ is_Ok (Custom.relation_sides obj m n i o t) ->
  exists rel : gmap (node * node * node * nat) Custom.constraint,
    fst (Custom._create obj m (Some group) b) =
      {| Custom.relation := Some rel;
         Custom.relation_build :=
           Some Custom.BuildAction_input_output_relation_rule |} /\
    forall k,
      (In k before -> exists c, rel !! k = Some c /\
                                Custom.constraint_at obj m k = Some c) /\
      (~ In k before -> rel !! k = None).
Proof.
  intros Hvisit Hbefore Hraise.
  destruct (for_rule_raise_state obj m before after (n, i, o, t)
              {| Custom.relation := Some ∅;
                 Custom.relation_build :=
                   Some Custom.BuildAction_input_output_relation_rule |} ∅)
    as (rel & Hrun & Hlook); [reflexivity | | exact Hraise |].
  { intros [[[n' i'] o'] t'] Hin. simpl. apply Hbefore.
    by apply list_elem_of_In. }
  exists rel. split.
  - rewrite create_Some_unfold, Hvisit, Hrun. reflexivity.
  - intros k. rewrite Hlook. split.
    + intros Hk. rewrite decide_True by (by apply list_elem_of_In).
      destruct k as [[[n' i'] o'] t']. specialize (Hbefore n' i' o' t' Hk).
      unfold Custom.constraint_at.
      destruct (Custom.relation_sides obj m n' i' o' t') as [[lhs rhs]|];
        [eauto | contradiction].
    + intros Hk. rewrite decide_False by (by rewrite list_elem_of_In).
      apply lookup_empty.
Qed.

Lemma create_keeps_earlier_constraints_witness :
  exists rel : gmap (node * node * node * nat) Custom.constraint,
    fst (Custom._create Examples.obj_sloped MoreExamples.model_gap
           (Some ["genset"]) Examples.empty_block) =
      {| Custom.relation := Some rel;
         Custom.relation_build :=
           Some Custom.BuildAction_input_output_relation_rule |} /\
    (exists c, rel !! ("genset", "diesel", "electricity", 0%nat) = Some c) /\
    rel !! ("genset", "diesel", "electricity", 1%nat) = None.
Proof.
  destruct (create_keeps_earlier_constraints Examples.obj_sloped
              MoreExamples.model_gap ["genset"] Examples.empty_block
              [("genset", "diesel", "electricity", 0%nat)] []
              "genset" "diesel" "electricity" 1%nat)
    as (rel & Hrun & Hrel).
  - reflexivity.
  - intros n' i' o' t' [[= <- <- <- <-]|[]]. vm_compute. exact I.
  - intros H. vm_compute in H. exact H.
  - exists rel. split; [exact Hrun|]. split.
    + destruct (Hrel ("genset", "diesel", "electricity", 0%nat)) as [H _].
      destruct H as (c & Hc & _); [by left | eauto].
    + apply Hrel. intros [[=]|[]].
Defined.

(** X4: the outcome of [_create] depends on the group only through the set of
    its generators, and not on what the block held before: for two groups
    with the same members (in any order, with or without repetitions) whose
    expressions all evaluate, [_create] leaves the same block. *)
Theorem create_ignores_group_order
    (obj : node -> Custom.DieselGenerator) (m : Custom.Model)
    (group group' : list node) (b b' : Custom.Block) :
  (forall n, In n group <-> In n group') ->
  (forall n i o t, Custom.in_domain obj m group (n, i, o, t) ->
     is_Ok (Custom.relation_sides obj m n i o t)) ->
  Custom._create obj m (Some group) b = Custom._create obj m (Some group') b'.
Proof.
  intros Hsame Hok.
  assert (Hdom : forall idx, Custom.in_domain obj m group idx <->
                             Custom.in_domain obj m group' idx).
  { intros [[[n i] o] t]. unfold Custom.in_domain. rewrite Hsame. tauto. }
  set (b0 := {| Custom.relation := Some ∅;
                Custom.relation_build :=
                  Some Custom.BuildAction_input_output_relation_rule |}).
  destruct (for_rule_ok obj m (Custom.visit_order obj m group) b0 ∅)
    as (rel & Hrun & Hlook); [reflexivity | |].
  { intros [[[n i] o] t] Hin. apply elem_of_visit_order in Hin. simpl. auto. }
  destruct (for_rule_ok obj m (Custom.visit_order obj m group') b0 ∅)
    as (rel' & Hrun' & Hlook'); [reflexivity | |].
  { intros [[[n i] o] t] Hin. apply elem_of_visit_order, Hdom in Hin.
    simpl. auto. }
  rewrite !create_Some_unfold. fold b0. rewrite Hrun, Hrun'.
  replace rel' with rel; [reflexivity|].
  apply map_eq. intros k. rewrite Hlook, Hlook'.
  destruct (decide (k ∈ Custom.visit_order obj m group)) as [Hk|Hk].
  - rewrite decide_True; [reflexivity|].
    by apply elem_of_visit_order, Hdom, elem_of_visit_order.
  - rewrite decide_False; [reflexivity|]. intros Hk'. apply Hk.
    by apply elem_of_visit_order, Hdom, elem_of_visit_order.
Qed.

Lemma create_ignores_group_order_witness :
  Custom._create Examples.obj_sloped Examples.model (Some ["genset"])
    Examples.empty_block =
  Custom._create Examples.obj_sloped Examples.model (Some ["genset"; "genset"])
    {| Custom.relation := None;
       Custom.relation_build :=
         Some Custom.BuildAction_input_output_relation_rule |}.
Proof.
  apply create_ignores_group_order.
  - intros n. simpl. tauto.
  - intros n i o t (Hn & Hi & Ho & Ht). simpl in Hn, Hi, Ho, Ht.
    destruct Hn as [<-|[]]. destruct Hi as [<-|[]]. destruct Ho as [<-|[]].
    destruct Ht as [<-|[<-|[]]]; vm_compute; exact I.
Defined.

(** X5: for an empty group list, and for a model without time steps, no
    expression is evaluated: [_create] attaches an empty relation and the
    build action and ends normally, whatever the generators are. *)
Theorem create_nothing_to_visit
    (obj : node -> Custom.DieselGenerator) (m : Custom.Model)
    (group : list node) (b : Custom.Block) :
  group = [] \/ Custom.TIMESTEPS m = [] ->
  Custom._create obj m (Some group) b =
    ({| Custom.relation := Some ∅;
        Custom.relation_build :=
          Some Custom.BuildAction_input_output_relation_rule |}, Ok tt).
Proof.
  intros H. rewrite create_Some_unfold.
  replace (Custom.visit_order obj m group) with
    (@nil (node * node * node * nat)); [reflexivity|].
  destruct H as [->|Ht]; [reflexivity|].
  symmetry. by apply visit_order_no_timesteps.
Qed.

Lemma create_nothing_to_visit_witness :
  Custom._create Examples.obj_flat MoreExamples.model_idle (Some ["genset"])
    Examples.empty_block =
    ({| Custom.relation := Some ∅;
        Custom.relation_build :=
          Some Custom.BuildAction_input_output_relation_rule |}, Ok tt).
Proof.
  apply create_nothing_to_visit. right. reflexivity.
Defined.

(** X6: what a stored constraint says about the generator.  For a non-zero
    nominal value it is the linear fuel curve: the fuel flow equals
    [fuel_coeff_a] times the load (output flow over nominal value) plus
    [fuel_coeff_b] times the status. *)
Theorem relation_states_fuel_curve
    (obj : node -> Custom.DieselGenerator) (m : Custom.Model)
    (n i o : node) (t : nat) (lhs rhs : Custom.expr) (nom : Q) :
  Custom.relation_sides obj m n i o t = Ok (lhs, rhs) ->
  (Custom.flows m !! (n, o)) ≫= Custom.nominal_value = Some nom ->
  ~ (nom == 0)%Q ->
  forall rho : Custom.var -> Q,
    Custom.holds rho (Custom.CEq lhs rhs) <->
    (rho (Custom.flow_var i n t) ==
       Custom.fuel_coeff_a (obj n) * (rho (Custom.flow_var n o t) / nom)
       + Custom.fuel_coeff_b (obj n) * rho (Custom.status_var n o t))%Q.
Proof.
  intros Hs Hnom Hnz rho.
  apply relation_sides_inv in Hs as (nom' & Hnom' & Ha & -> & ->).
  rewrite Hnom in Hnom'. injection Hnom' as <-. simpl.
  set (x := rho (Custom.flow_var i n t)).
  set (y := rho (Custom.flow_var n o t)).
  set (s := rho (Custom.status_var n o t)).
  set (a := Custom.fuel_coeff_a (obj n)) in *.
  set (c := Custom.fuel_coeff_b (obj n)).
  split; intros H.
  - rewrite <- H. field. split; assumption.
  - rewrite H. field. split; assumption.
Qed.

Lemma relation_states_fuel_curve_witness :
  Custom.holds MoreExamples.half_load
    (Custom.CEq
       (Custom.EDiv
          (Custom.EMul
             (Custom.ESub
                (Custom.EVar (Custom.flow_var "diesel" "genset" 0))
                (Custom.EMul (Custom.EConst (200 # 1))
                   (Custom.EVar (Custom.status_var "genset" "electricity" 0))))
             (Custom.EConst (100 # 1)))
          (Custom.EConst (100 # 1)))
       (Custom.EVar (Custom.flow_var "genset" "electricity" 0))) <->
  (MoreExamples.half_load (Custom.flow_var "diesel" "genset" 0%nat) ==
     (100 # 1) * (MoreExamples.half_load
                    (Custom.flow_var "genset" "electricity" 0%nat) / (100 # 1))
     + (200 # 1) * MoreExamples.half_load
                     (Custom.status_var "genset" "electricity" 0%nat))%Q.
Proof.
  apply (relation_states_fuel_curve Examples.obj_sloped Examples.model
           "genset" "diesel" "electricity" 0%nat).
  - vm_compute. reflexivity.
  - vm_compute. reflexivity.
  - intros H. vm_compute in H. discriminate.
Defined.

(** * Further properties of [DieselGenerator.__init__] *)

Section MoreInitFacts.

Import Custom.

Variable Transformer__init__ : node -> kwargs -> M World unit.
Variable polyfit : list Q -> list Q -> result (Q * Q).

(** [__init__] step by step, for a base-class initialiser that returns. *)
Lemma init_unfold (self : node) (fc : dict Q Q) (kw : kwargs) (w w1 : World) :
  Transformer__init__ self kw w = (w1, Ok tt) ->
  __init__ Transformer__init__ polyfit self fc kw w =
  match kw_fuel_input kw with
  | None => (w1, Raise AttributeError)
  | Some [] => (w1, Raise IndexError)
  | Some ((fuel_bus, fuel_flow) :: rest) =>
    let w2 := outputs_update fuel_bus [(self, fuel_flow)] w1 in
    match kw_electrical_output kw with
    | None => (w2, Raise TypeError)
    | Some eo =>
      let w3 := outputs_update self eo w2 in
      match polyfit (sorted Qle_bool (map py_float (keys fc)))
                    (map inject_Z (sorted Z.leb (map py_int (values fc)))) with
      | Raise e => (w3, Raise e)
      | Ok z => (w3, Ok {| fuel_input := (fuel_bus, fuel_flow) :: rest;
                           electrical_output := eo;
                           fuel_curve := fc; fuel_coeff_a := fst z;
                           fuel_coeff_b := snd z |})
      end
    end
  end.
Proof.
  intros HT. unfold __init__, mbind', lift, modify, ret, raise.
  rewrite dict_copy, HT.
  destruct (kw_fuel_input kw) as [[|[fuel_bus fuel_flow] rest]|]; simpl;
    try reflexivity.
  destruct (kw_electrical_output kw) as [eo|]; [|reflexivity].
  destruct (polyfit _ _) as [z|e]; reflexivity.
Qed.

End MoreInitFacts.

Section SortingFacts.

Lemma insert_sorted_perm {A : Type} (le : A -> A -> bool) (x : A) (l : list A) :
  insert_sorted le x l ≡ₚ x :: l.
Proof.
  induction l as [|y l IH]; simpl; [reflexivity|].
  destruct (le x y); [reflexivity|].
  rewrite IH. apply Permutation_swap.
Qed.

Lemma sorted_perm {A : Type} (le : A -> A -> bool) (l : list A) :
  sorted le l ≡ₚ l.
Proof.
  induction l as [|x l IH]; simpl; [reflexivity|].
  unfold sorted in *. simpl. rewrite insert_sorted_perm. by rewrite IH.
Qed.

Lemma insert_sorted_Sorted (x : Z) (l : list Z) :
  Sorted Z.le l -> Sorted Z.le (insert_sorted Z.leb x l).
Proof.
  induction l as [|y l IH]; simpl; intros Hl.
  - repeat constructor.
  - destruct (Z.leb x y) eqn:Hxy.
    + constructor; [exact Hl|]. constructor. by apply Z.leb_le.
    + apply Sorted_inv in Hl as [Hl Hhd]. constructor; [by apply IH|].
      apply Z.leb_gt in Hxy.
      destruct l as [|z l]; simpl.
      * constructor. lia.
      * destruct (Z.leb x z); constructor; [lia|].
        by apply HdRel_inv in Hhd.
Qed.

Lemma sorted_Sorted (l : list Z) : Sorted Z.le (sorted Z.leb l).
Proof.
  induction l as [|x l IH]; [constructor|].
  unfold sorted in *. simpl. by apply insert_sorted_Sorted.
Qed.

(** Sorting forgets the order in which the numbers were given. *)
Lemma sorted_of_perm (l l' : list Z) :
  l ≡ₚ l' -> sorted Z.leb l = sorted Z.leb l'.
Proof.
  intros Hp. apply (Sorted_unique Z.le); try apply sorted_Sorted.
  by rewrite !sorted_perm.
Qed.

(** Sorting a list that is in order returns it. *)
Lemma sorted_of_Sorted {A : Type} (R : A -> A -> Prop) (le : A -> A -> bool)
    (l : list A) :
  (forall x y, R x y -> le x y = true) -> Sorted R l -> sorted le l = l.
Proof.
  intros Hle. induction 1 as [|x l Hl IH Hhd]; [reflexivity|].
  unfold sorted in *. simpl. rewrite IH.
  destruct Hhd as [|y l' Hxy]; simpl; [reflexivity|].
  by rewrite (Hle x y Hxy).
Qed.

End SortingFacts.

(** X7: without a [fuel_input] keyword [__init__] raises [AttributeError],
    and with an empty [fuel_input] dictionary it raises [IndexError]; in both
    cases before any edge is stored, so the edges are as the initialiser of
    the base class left them. *)
Theorem init_needs_fuel_input
    (Transformer__init__ : node -> Custom.kwargs -> M Custom.World unit)
    (polyfit : list Q -> list Q -> result (Q * Q))
    (self : node) (fuel_curve : dict Q Q) (kw : Custom.kwargs)
    (w w1 : Custom.World) :
  Transformer__init__ self kw w = (w1, Ok tt) ->
  (Custom.kw_fuel_input kw = None ->
   Custom.__init__ Transformer__init__ polyfit self fuel_curve kw w =
     (w1, Raise AttributeError)) /\
  (Custom.kw_fuel_input kw = Some [] ->
   Custom.__init__ Transformer__init__ polyfit self fuel_curve kw w =
     (w1, Raise IndexError)).
Proof.
  intros HT. rewrite (init_unfold _ _ _ _ _ _ _ HT).
  split; intros ->; reflexivity.
Qed.

Lemma init_needs_fuel_input_witness :
  Custom.__init__ Examples.Transformer__init__ Custom.normal_equations_fit
    "genset" Examples.fuel_curve_falling MoreExamples.kwargs_no_fuel ∅ =
    (∅, Raise AttributeError).
Proof.
  apply (init_needs_fuel_input Examples.Transformer__init__
           Custom.normal_equations_fit "genset" Examples.fuel_curve_falling
           MoreExamples.kwargs_no_fuel ∅ ∅ eq_refl).
  reflexivity.
Defined.

(** X8: with a fuel input but without an [electrical_output] keyword
    [__init__] raises [TypeError] only after it has stored the edge from the
    fuel bus to the generator: the failed call leaves that edge behind. *)
Theorem init_leaves_fuel_edge_on_error
    (Transformer__init__ : node -> Custom.kwargs -> M Custom.World unit)
    (polyfit : list Q -> list Q -> result (Q * Q))
    (self : node) (fuel_curve : dict Q Q) (kw : Custom.kwargs)
    (fuel_bus : node) (fuel_flow : Custom.Flow) (rest : dict node Custom.Flow)
    (w w1 : Custom.World) :
  Transformer__init__ self kw w = (w1, Ok tt) ->
  Custom.kw_fuel_input kw = Some ((fuel_bus, fuel_flow) :: rest) ->
  Custom.kw_electrical_output kw = None ->
  exists w' : Custom.World,
    Custom.__init__ Transformer__init__ polyfit self fuel_curve kw w =
      (w', Raise TypeError) /\
    Custom.outputs w' fuel_bus !! self = Some fuel_flow.
Proof.
  intros HT Hfi Heo. rewrite (init_unfold _ _ _ _ _ _ _ HT), Hfi, Heo.
  eexists. split; [reflexivity|].
  rewrite outputs_update_same. simpl. apply lookup_insert_eq.
Qed.

Lemma init_leaves_fuel_edge_on_error_witness :
  exists w' : Custom.World,
    Custom.__init__ Examples.Transformer__init__ Custom.normal_equations_fit
      "genset" Examples.fuel_curve_falling MoreExamples.kwargs_no_output ∅ =
      (w', Raise TypeError) /\
    Custom.outputs w' "diesel" !! "genset" = Some Examples.diesel_flow.
Proof.
  apply (init_leaves_fuel_edge_on_error Examples.Transformer__init__
           Custom.normal_equations_fit "genset" Examples.fuel_curve_falling
           MoreExamples.kwargs_no_output "diesel" Examples.diesel_flow []
           ∅ ∅); reflexivity.
Defined.

(** X9: [__init__] stores an edge for the first fuel bus only.  Apart from
    the outputs of the generator itself and the entry of the generator in the
    outputs of the first fuel bus, every output entry is as the initialiser
    of the base class left it; in particular a second bus of [fuel_input]
    gets no edge to the generator. *)
Theorem init_wires_first_fuel_bus_only
    (Transformer__init__ : node -> Custom.kwargs -> M Custom.World unit)
    (polyfit : list Q -> list Q -> result (Q * Q))
    (self : node) (fuel_curve : dict Q Q) (kw : Custom.kwargs)
    (fuel_bus : node) (fuel_flow : Custom.Flow) (rest : dict node Custom.Flow)
    (w w1 w' : Custom.World) (g : Custom.DieselGenerator) :
  Transformer__init__ self kw w = (w1, Ok tt) ->
  Custom.kw_fuel_input kw = Some ((fuel_bus, fuel_flow) :: rest) ->
  Custom.__init__ Transformer__init__ polyfit self fuel_curve kw w = (w', Ok g) ->
  forall source target : node,
    source <> self ->
    ~ (source = fuel_bus /\ target = self) ->
    Custom.outputs w' source !! target = Custom.outputs w1 source !! target.
Proof.
  intros HT Hfi Hrun source target Hself Hedge.
  rewrite (init_unfold _ _ _ _ _ _ _ HT), Hfi in Hrun.
  destruct (Custom.kw_electrical_output kw) as [eo|]; [|discriminate].
  destruct (polyfit _ _) as [z|e]; [|discriminate].
  injection Hrun as <- _.
  rewrite outputs_update_other by congruence.
  destruct (decide (source = fuel_bus)) as [->|Hne].
  - rewrite outputs_update_same. simpl. rewrite lookup_insert_ne; [done|].
    intros <-. apply Hedge. done.
  - by rewrite outputs_update_other.
Qed.

Lemma init_wires_first_fuel_bus_only_witness :
  exists (w' : Custom.World) (g : Custom.DieselGenerator),
    Custom.__init__ Examples.Transformer__init__ Custom.normal_equations_fit
      "genset" Examples.fuel_curve_falling MoreExamples.kwargs_two_fuels ∅ =
      (w', Ok g) /\
    Custom.outputs w' "biodiesel" !! "genset" = None.
Proof.
  exists (Custom.outputs_update "genset" [("electricity", Examples.el_flow)]
            (Custom.outputs_update "diesel" [("genset", Examples.diesel_flow)] ∅)).
  exists {| Custom.fuel_input := [("diesel", Examples.diesel_flow);
                                  ("biodiesel", Examples.diesel_flow)];
            Custom.electrical_output := [("electricity", Examples.el_flow)];
            Custom.fuel_curve := Examples.fuel_curve_falling;
            Custom.fuel_coeff_a := 100 # 1;
            Custom.fuel_coeff_b := 200 # 1 |}.
  assert (Hrun : Custom.__init__ Examples.Transformer__init__
                   Custom.normal_equations_fit "genset"
                   Examples.fuel_curve_falling MoreExamples.kwargs_two_fuels ∅ =
    (Custom.outputs_update "genset" [("electricity", Examples.el_flow)]
       (Custom.outputs_update "diesel" [("genset", Examples.diesel_flow)] ∅),
     Ok {| Custom.fuel_input := [("diesel", Examples.diesel_flow);
                                 ("biodiesel", Examples.diesel_flow)];
           Custom.electrical_output := [("electricity", Examples.el_flow)];
           Custom.fuel_curve := Examples.fuel_curve_falling;
           Custom.fuel_coeff_a := 100 # 1;
           Custom.fuel_coeff_b := 200 # 1 |}))
    by (vm_compute; reflexivity).
  split; [exact Hrun|].
  rewrite (init_wires_first_fuel_bus_only Examples.Transformer__init__
             Custom.normal_equations_fit "genset" Examples.fuel_curve_falling
             MoreExamples.kwargs_two_fuels "diesel" Examples.diesel_flow
             [("biodiesel", Examples.diesel_flow)] ∅ ∅ _ _ eq_refl eq_refl Hrun
             "biodiesel" "genset").
  - reflexivity.
  - discriminate.
  - intros [H _]. discriminate.
Defined.

Section CurveFacts.

Import Custom.

Lemma py_int_inject_Z (z : Z) : py_int (inject_Z z) = z.
Proof. unfold py_int. simpl. apply Z.quot_1_r. Qed.

Lemma keys_combine {K V : Type} (ks : list K) (vs : list V) :
  length ks = length vs -> keys (combine ks vs) = ks.
Proof.
  revert vs. induction ks as [|k ks IH]; intros [|v vs] Hlen;
    simpl in *; try discriminate; [reflexivity|].
  f_equal. apply IH. lia.
Qed.

Lemma values_combine {K V : Type} (ks : list K) (vs : list V) :
  length ks = length vs -> values (combine ks vs) = vs.
Proof.
  revert vs. induction ks as [|k ks IH]; intros [|v vs] Hlen;
    simpl in *; try discriminate; [reflexivity|].
  f_equal. apply IH. lia.
Qed.

End CurveFacts.

(** X10: for a fuel curve listed by increasing operating point whose
    consumption values are whole numbers that do not decrease, sorting changes
    nothing, and the coefficients [__init__] stores are a least-squares fit
    of the curve's own points (for a fit routine that returns least-squares
    lines). *)
Theorem init_fits_rising_curve
    (Transformer__init__ : node -> Custom.kwargs -> M Custom.World unit)
    (polyfit : list Q -> list Q -> result (Q * Q))
    (self : node) (points : list Q) (consumption : list Z)
    (kw : Custom.kwargs) (w w' : Custom.World) (g : Custom.DieselGenerator) :
  (forall xs ys a b, polyfit xs ys = Ok (a, b) ->
     Custom.least_squares_fit (combine xs ys) a b) ->
  length points = length consumption ->
  Sorted Qle points ->
  Sorted Z.le consumption ->
  Custom.__init__ Transformer__init__ polyfit self
    (combine points (map inject_Z consumption)) kw w = (w', Ok g) ->
  Custom.least_squares_fit (combine points (map inject_Z consumption))
    (Custom.fuel_coeff_a g) (Custom.fuel_coeff_b g).
Proof.
  intros Hfit Hlen Hpts Hcons Hrun.
  pose proof (init_fits_sorted_columns _ _ _ _ _ _ _ _ Hfit Hrun) as H.
  rewrite keys_combine, values_combine in H by (by rewrite length_map).
  rewrite map_map in H.
  rewrite (map_ext _ (fun z => z) py_int_inject_Z), map_id in H.
  unfold Custom.py_float in H. rewrite map_id in H.
  rewrite (sorted_of_Sorted Qle Qle_bool) in H;
    [|intros x y Hxy; by apply Qle_bool_iff | exact Hpts].
  rewrite (sorted_of_Sorted Z.le Z.leb) in H;
    [exact H | intros x y Hxy; by apply Z.leb_le | exact Hcons].
Qed.

Lemma init_fits_rising_curve_witness :
  exists (w' : Custom.World) (g : Custom.DieselGenerator),
    Custom.__init__ Examples.Transformer__init__ Custom.normal_equations_fit
      "genset"
      (combine MoreExamples.rising_points
         (map inject_Z MoreExamples.rising_consumption))
      Examples.genset_kwargs ∅ = (w', Ok g) /\
    Custom.least_squares_fit
      (combine MoreExamples.rising_points
         (map inject_Z MoreExamples.rising_consumption))
      (Custom.fuel_coeff_a g) (Custom.fuel_coeff_b g).
Proof.
  exists Examples.genset_world.
  exists {| Custom.fuel_input := [("diesel", Examples.diesel_flow)];
            Custom.electrical_output := [("electricity", Examples.el_flow)];
            Custom.fuel_curve :=
              combine MoreExamples.rising_points
                (map inject_Z MoreExamples.rising_consumption);
            Custom.fuel_coeff_a := 160 # 1;
            Custom.fuel_coeff_b := 40 # 1 |}.
  assert (Hrun : Custom.__init__ Examples.Transformer__init__
                   Custom.normal_equations_fit "genset"
                   (combine MoreExamples.rising_points
                      (map inject_Z MoreExamples.rising_consumption))
                   Examples.genset_kwargs ∅ =
    (Examples.genset_world,
     Ok {| Custom.fuel_input := [("diesel", Examples.diesel_flow)];
           Custom.electrical_output := [("electricity", Examples.el_flow)];
           Custom.fuel_curve :=
             combine MoreExamples.rising_points
               (map inject_Z MoreExamples.rising_consumption);
           Custom.fuel_coeff_a := 160 # 1;
           Custom.fuel_coeff_b := 40 # 1 |}))
    by (vm_compute; reflexivity).
  split; [exact Hrun|].
  apply (init_fits_rising_curve Examples.Transformer__init__
           Custom.normal_equations_fit "genset" MoreExamples.rising_points
           MoreExamples.rising_consumption Examples.genset_kwargs ∅
           Examples.genset_world _ normal_equations_fit_least_squares
           eq_refl).
  - repeat constructor. vm_compute. discriminate.
  - repeat constructor. vm_compute. discriminate.
  - exact Hrun.
Defined.

(** X11: the stored coefficients do not depend on which consumption value
    belongs to which operating point: two fuel curves with the same operating
    points and, up to their order, the same truncated consumption values lead
    to the same edges and the same coefficients. *)
Theorem init_blind_to_pairing
    (Transformer__init__ : node -> Custom.kwargs -> M Custom.World unit)
    (polyfit : list Q -> list Q -> result (Q * Q))
    (self : node) (fuel_curve fuel_curve' : dict Q Q)
    (kw : Custom.kwargs) (w w' : Custom.World) (g : Custom.DieselGenerator) :
  keys fuel_curve = keys fuel_curve' ->
  map Custom.py_int (values fuel_curve) ≡ₚ
    map Custom.py_int (values fuel_curve') ->
  Custom.__init__ Transformer__init__ polyfit self fuel_curve kw w = (w', Ok g) ->
  exists g' : Custom.DieselGenerator,
    Custom.__init__ Transformer__init__ polyfit self fuel_curve' kw w =
      (w', Ok g') /\
    Custom.fuel_coeff_a g' = Custom.fuel_coeff_a g /\
    Custom.fuel_coeff_b g' = Custom.fuel_coeff_b g /\
    Custom.fuel_curve g' = fuel_curve'.
Proof.
  intros Hkeys Hvals Hrun.
  apply init_inv in Hrun
    as (w1 & fb & ff & rest & eo & z & HT & Hfi & Heo & Hz & -> & ->).
  rewrite (init_unfold _ _ _ _ _ _ _ HT), Hfi, Heo.
  rewrite <- Hkeys, <- (sorted_of_perm _ _ Hvals), Hz.
  eexists. split; [reflexivity|]. simpl. auto.
Qed.

Lemma init_blind_to_pairing_witness :
  exists g' : Custom.DieselGenerator,
    Custom.__init__ Examples.Transformer__init__ Custom.normal_equations_fit
      "genset" [(1 # 2, 250 # 1); (1 # 1, 300 # 1)] Examples.genset_kwargs ∅ =
      (Examples.genset_world, Ok g') /\
    Custom.fuel_coeff_a g' = 100 # 1 /\
    Custom.fuel_coeff_b g' = 200 # 1 /\
    Custom.fuel_curve g' = [(1 # 2, 250 # 1); (1 # 1, 300 # 1)].
Proof.
  apply (init_blind_to_pairing Examples.Transformer__init__
           Custom.normal_equations_fit "genset" Examples.fuel_curve_falling
           [(1 # 2, 250 # 1); (1 # 1, 300 # 1)] Examples.genset_kwargs ∅
           Examples.genset_world Examples.genset_fitted).
  - reflexivity.
  - apply Permutation_swap.
  - vm_compute. reflexivity.
Defined.

(** * Further properties of [ViewPlot] *)

Section StringFacts.

Import PlotMethods.

(** Removing substrings brings in no character. *)
Lemma chars_replace_from (old : string) (s : string) :
  forall (skip : nat) (c : Ascii.ascii),
    In c (chars (replace_from old "" skip s)) -> In c (chars s).
Proof.
  unfold chars.
  induction s as [|c0 s IH]; intros skip c; [simpl; tauto|].
  destruct skip as [|k]; cbn [replace_from].
  - destruct (String.prefix old (String c0 s)).
    + cbn [String.append String.list_ascii_of_string]. intros H. right.
      exact (IH _ _ H).
    + cbn [String.list_ascii_of_string]. intros [->|H]; [by left|].
      right. exact (IH _ _ H).
  - cbn [String.list_ascii_of_string]. intros H. right. exact (IH _ _ H).
Qed.

Lemma intersperse_empty (s : string) : intersperse "" s = s.
Proof. induction s as [|c s IH]; simpl; [|rewrite IH]; reflexivity. Qed.

Lemma chars_str_replace (s old : string) (c : Ascii.ascii) :
  In c (chars (str_replace s old "")) -> In c (chars s).
Proof.
  unfold str_replace. destruct old as [|o old].
  - simpl. by rewrite intersperse_empty.
  - apply chars_replace_from.
Qed.

(** Removing a character leaves no occurrence of it. *)
Lemma chars_replace_from_char (x : Ascii.ascii) (s : string) :
  forall skip, ~ In x (chars (replace_from (String x "") "" skip s)).
Proof.
  unfold chars.
  induction s as [|c0 s IH]; intros skip; [simpl; tauto|].
  destruct skip as [|k]; cbn [replace_from]; [|apply IH].
  cbn [String.prefix String.length Nat.sub].
  destruct (Ascii.ascii_dec x c0) as [->|Hne].
  - replace (String.prefix "" s) with true by (by destruct s).
    cbn [String.append]. apply IH.
  - cbn [String.list_ascii_of_string]. intros [->|H]; [done|].
    exact (IH _ H).
Qed.

End StringFacts.

Section LegendFacts.

Import Plot PlotMethods.

Variable Results : Type.

Lemma set_legend_kwarg_twice (k : string) (v1 v2 : list string)
    (self : ViewPlot Results) :
  set_legend_kwarg k v2 (set_legend_kwarg k v1 self) = set_legend_kwarg k v2 self.
Proof.
  unfold set_legend_kwarg. simpl. f_equal. apply insert_insert_eq.
Qed.

(** A cleaned label has none of the characters ['('], [','] and [' ']. *)
Lemma clean_label_chars (node0 : option node) (label label' : string) :
  clean_label node0 label = Ok label' ->
  forall c, In c (chars label') -> ~ In c (chars "(, ").
Proof.
  unfold clean_label, bind. destruct node0 as [n|]; [|discriminate].
  intros [= <-] c Hc [<-|[<-|[<-|[]]]].
  - apply chars_replace_from, chars_replace_from, chars_str_replace,
      chars_replace_from in Hc. by apply chars_replace_from_char in Hc.
  - apply chars_replace_from in Hc. by apply chars_replace_from_char in Hc.
  - by apply chars_replace_from_char in Hc.
Qed.

(** The loop, when it ends normally: nothing happens for no labels, and
    otherwise the cleaned labels are stored after those collected before. *)
Lemma clean_labels_ok (labels : list string) :
  forall (acc : list string) (self self' : ViewPlot Results),
    clean_labels labels acc self = (self', Ok tt) ->
    exists cleaned,
      Forall2 (fun l l' => clean_label (node_ self) l = Ok l') labels cleaned /\
      self' = match labels with
              | [] => self
              | _ => set_legend_kwarg "labels" (acc ++ cleaned) self
              end.
Proof.
  induction labels as [|l labels IH]; intros acc self self' Hrun.
  - injection Hrun as <-. exists []. split; [constructor | reflexivity].
  - simpl in Hrun.
    destruct (clean_label (node_ self) l) as [l'|e] eqn:Hl; [|discriminate].
    apply IH in Hrun as (cleaned & Hall & ->). simpl in Hall.
    exists (l' :: cleaned). split; [by constructor|].
    destruct labels as [|l2 labels].
    + inversion Hall; subst. reflexivity.
    + rewrite set_legend_kwarg_twice, <- app_assoc. reflexivity.
Qed.

(** The loop on the first label of an object without a node. *)
Lemma clean_labels_no_node (l : string) (labels acc : list string)
    (self : ViewPlot Results) :
  node_ self = None ->
  clean_labels (l :: labels) acc self = (self, Raise TypeError).
Proof. intros Hn. simpl. unfold clean_label. rewrite Hn. reflexivity. Qed.

Variable get_legend_handles_labels : nat -> list string * list string.

(** What fetching a keyword from the axis leaves behind. *)
Lemma fetch_legend_kwarg_ok (k : string)
    (pick : list string * list string -> list string)
    (self self' : ViewPlot Results) :
  fetch_legend_kwarg get_legend_handles_labels k pick self = (self', Ok tt) ->
  ax self' = ax self /\ node_ self' = node_ self /\
  (forall k', k' <> k -> legend_kwargs self' !! k' = legend_kwargs self !! k') /\
  exists v, legend_kwargs self' !! k = Some v /\
    forall a, ax self = Some a ->
      v = match legend_kwargs self !! k with
          | Some v0 => v0
          | None => pick (get_legend_handles_labels a)
          end.
Proof.
  unfold fetch_legend_kwarg, getattr_ax.
  destruct (legend_kwargs self !! k) as [v0|] eqn:Hk.
  - intros [= <-]. repeat split; eauto.
  - destruct (ax self) as [a|] eqn:Ha; [|discriminate].
    intros [= <-]. simpl. repeat split; [exact Ha | |].
    + intros k' Hne. by rewrite lookup_insert_ne.
    + eexists. split; [apply lookup_insert_eq|]. by intros a' [= <-].
Qed.

(** A keyword that is there is not fetched. *)
Lemma fetch_legend_kwarg_cached (k : string)
    (pick : list string * list string -> list string)
    (self : ViewPlot Results) :
  is_Some (legend_kwargs self !! k) ->
  fetch_legend_kwarg get_legend_handles_labels k pick self = (self, Ok tt).
Proof. intros [v Hv]. unfold fetch_legend_kwarg. by rewrite Hv. Qed.

(** [clear_legend_labels] stage by stage. *)
Lemma clear_legend_labels_unfold (self : ViewPlot Results) (calls : list ax_call) :
  clear_legend_labels get_legend_handles_labels (self, calls) =
  match fetch_legend_kwarg get_legend_handles_labels "handles" fst self with
  | (s1, Raise e) => ((s1, calls), Raise e)
  | (s1, Ok _) =>
    match fetch_legend_kwarg get_legend_handles_labels "labels" snd s1 with
    | (s2, Raise e) => ((s2, calls), Raise e)
    | (s2, Ok _) =>
      match getitem (legend_kwargs s2 !! "labels") with
      | Raise e => ((s2, calls), Raise e)
      | Ok labels =>
        match clean_labels labels [] s2 with
        | (s3, Raise e) => ((s3, calls), Raise e)
        | (s3, Ok _) =>
          match getattr_ax s3 with
          | Ok a => ((s3, (calls ++ [legend a (legend_kwargs s3)])%list), Ok tt)
          | Raise e => ((s3, calls), Raise e)
          end
        end
      end
    end
  end.
Proof.
  unfold clear_legend_labels, mbind'.
  destruct (fetch_legend_kwarg _ "handles" fst self) as [s1 [[]|e]];
    [|reflexivity].
  destruct (fetch_legend_kwarg _ "labels" snd s1) as [s2 [[]|e]];
    [|reflexivity].
  destruct (getitem (legend_kwargs s2 !! "labels")) as [labels|e];
    reflexivity.
Qed.

End LegendFacts.

(** X12: when [clear_legend_labels] ends normally, the labels stored under
    ['labels'] are as many as the labels it started from (the cached ones, or
    else those the axis reports), none of them contains ['('], [','] or a
    blank, and one [legend] call with the final keyword arguments has been
    made on the axis. *)
Theorem clear_legend_labels_strips (Results : Type)
    (get_legend_handles_labels : nat -> list string * list string)
    (self self' : Plot.ViewPlot Results)
    (calls calls' : list PlotMethods.ax_call) :
  PlotMethods.clear_legend_labels get_legend_handles_labels (self, calls) =
    ((self', calls'), Ok tt) ->
  exists (a : nat) (cleaned : list string),
    Plot.ax self = Some a /\
    Plot.legend_kwargs self' !! "labels" = Some cleaned /\
    length cleaned =
      length (match Plot.legend_kwargs self !! "labels" with
              | Some labels => labels
              | None => snd (get_legend_handles_labels a)
              end) /\
    (forall label c, In label cleaned -> In c (PlotMethods.chars label) ->
       ~ In c (PlotMethods.chars "(, ")) /\
    calls' = (calls ++ [PlotMethods.legend a (Plot.legend_kwargs self')])%list.
Proof.
  rewrite clear_legend_labels_unfold. intros Hrun.
  destruct (PlotMethods.fetch_legend_kwarg _ "handles" fst self)
    as [s1 [[]|e]] eqn:H1; [|discriminate].
  destruct (PlotMethods.fetch_legend_kwarg _ "labels" snd s1)
    as [s2 [[]|e]] eqn:H2; [|discriminate].
  apply fetch_legend_kwarg_ok in H1 as (Hax1 & Hnode1 & Hother1 & _).
  apply fetch_legend_kwarg_ok in H2 as (Hax2 & Hnode2 & _ & labels & Hl2 & Hlabels).
  rewrite Hl2 in Hrun. simpl in Hrun.
  destruct (PlotMethods.clean_labels labels [] s2) as [s3 [[]|e]] eqn:Hloop;
    [|discriminate].
  apply clean_labels_ok in Hloop as (cleaned & Hall & ->).
  assert (Hax3 : Plot.ax (match labels with
                          | [] => s2
                          | _ => PlotMethods.set_legend_kwarg "labels"
                                   ([] ++ cleaned) s2
                          end) = Plot.ax self).
  { rewrite <- Hax1, <- Hax2. by destruct labels. }
  unfold PlotMethods.getattr_ax in Hrun. rewrite Hax3 in Hrun.
  destruct (Plot.ax self) as [a|] eqn:Ha; [|discriminate].
  injection Hrun as <- <-.
  exists a, cleaned. split; [reflexivity|]. split; [|split; [|split]].
  - destruct labels as [|l labels].
    + inversion Hall; subst. exact Hl2.
    + simpl. apply lookup_insert_eq.
  - rewrite <- (Forall2_length _ _ _ Hall).
    rewrite (Hlabels a) by congruence.
    by rewrite (Hother1 "labels").
  - intros label c Hin Hc.
    apply list_elem_of_In, list_elem_of_lookup in Hin as [j Hj].
    destruct (Forall2_lookup_r _ _ _ _ _ Hall Hj) as (l & _ & Hclean).
    by eapply clean_label_chars.
  - reflexivity.
Qed.

Lemma clear_legend_labels_strips_witness :
  PlotMethods.clear_legend_labels AxesExamples.get_legend_handles_labels
    (AxesExamples.long_view, []) =
    ((LegendExamples.cleaned_view,
      [PlotMethods.legend 1 (Plot.legend_kwargs LegendExamples.cleaned_view)]),
     Ok tt) /\
  exists (a : nat) (cleaned : list string),
    Plot.legend_kwargs LegendExamples.cleaned_view !! "labels" = Some cleaned /\
    forall label c, In label cleaned -> In c (PlotMethods.chars label) ->
      ~ In c (PlotMethods.chars "(, ").
Proof.
  assert (Hrun : PlotMethods.clear_legend_labels
                   AxesExamples.get_legend_handles_labels
                   (AxesExamples.long_view, []) =
    ((LegendExamples.cleaned_view,
      [PlotMethods.legend 1 (Plot.legend_kwargs LegendExamples.cleaned_view)]),
     Ok tt)) by (vm_compute; reflexivity).
  split; [exact Hrun|].
  destruct (clear_legend_labels_strips unit _ _ _ _ _ Hrun)
    as (a & cleaned & _ & Hl & _ & Hchars & _).
  exists a, cleaned. split; assumption.
Defined.

(** X13: on an object that has no node yet, [clear_legend_labels] raises
    [TypeError] at the first label and makes no [legend] call; the handles
    and labels it fetched from the axis before stay in [legend_kwargs],
    uncleaned. *)
Theorem clear_legend_labels_needs_node (Results : Type)
    (get_legend_handles_labels : nat -> list string * list string)
    (self : Plot.ViewPlot Results) (calls : list PlotMethods.ax_call)
    (a : nat) (label : string) (labels : list string) :
  Plot.node_ self = None ->
  Plot.ax self = Some a ->
  Plot.legend_kwargs self !! "handles" = None ->
  Plot.legend_kwargs self !! "labels" = None ->
  snd (get_legend_handles_labels a) = label :: labels ->
  PlotMethods.clear_legend_labels get_legend_handles_labels (self, calls) =
    ((PlotMethods.set_legend_kwarg "labels" (label :: labels)
        (PlotMethods.set_legend_kwarg "handles"
           (fst (get_legend_handles_labels a)) self), calls),
     Raise TypeError).
Proof.
  intros Hnode Hax Hh Hl Hlabels. rewrite clear_legend_labels_unfold.
  unfold PlotMethods.fetch_legend_kwarg, PlotMethods.getattr_ax.
  rewrite Hh, Hax. simpl. rewrite lookup_insert_ne, Hl, Hax by done.
  rewrite Hlabels. simpl. rewrite lookup_insert_eq.
  unfold getitem. rewrite clean_labels_no_node by exact Hnode. reflexivity.
Qed.

Lemma clear_legend_labels_needs_node_witness :
  PlotMethods.clear_legend_labels AxesExamples.get_legend_handles_labels
    (LegendExamples.nodeless_view, []) =
    ((PlotMethods.set_legend_kwarg "labels"
        ["((diesel, genset), flow)"; "((genset, electricity), flow)"]
        (PlotMethods.set_legend_kwarg "handles" ["line 0"; "line 1"]
           LegendExamples.nodeless_view), []),
     Raise TypeError).
Proof.
  apply (clear_legend_labels_needs_node unit
           AxesExamples.get_legend_handles_labels LegendExamples.nodeless_view
           [] 1%nat); reflexivity.
Defined.

(** X14: with handles and labels both cached in [legend_kwargs], the axis is
    not asked for them: the outcome is the same whatever the axis would
    report.  If the object has no axis, the method then does not end
    normally and makes no call. *)
Theorem clear_legend_labels_uses_cache (Results : Type)
    (get_legend_handles_labels get_legend_handles_labels'
       : nat -> list string * list string)
    (self : Plot.ViewPlot Results) (calls : list PlotMethods.ax_call) :
  is_Some (Plot.legend_kwargs self !! "handles") ->
  is_Some (Plot.legend_kwargs self !! "labels") ->
  PlotMethods.clear_legend_labels get_legend_handles_labels (self, calls) =
  PlotMethods.clear_legend_labels get_legend_handles_labels' (self, calls) /\
  (Plot.ax self = None ->
   forall self' calls' res,
     PlotMethods.clear_legend_labels get_legend_handles_labels (self, calls) =
       ((self', calls'), res) ->
     calls' = calls /\ res <> Ok tt).
Proof.
  intros Hh Hl. rewrite !clear_legend_labels_unfold.
  rewrite !fetch_legend_kwarg_cached by assumption.
  split; [reflexivity|].
  intros Hax self' calls' res.
  destruct (getitem _) as [labels|e]; [|intros [= <- <- <-]; done].
  destruct (PlotMethods.clean_labels labels [] self) as [s3 [[]|e]] eqn:Hloop;
    [|intros [= <- <- <-]; done].
  apply clean_labels_ok in Hloop as (cleaned & _ & ->).
  unfold PlotMethods.getattr_ax.
  replace (Plot.ax _) with (@None nat) by (by destruct labels).
  intros [= <- <- <-]. done.
Qed.

Lemma clear_legend_labels_uses_cache_witness :
  PlotMethods.clear_legend_labels AxesExamples.get_legend_handles_labels
    (LegendExamples.cached_view, []) =
    ((PlotMethods.set_legend_kwarg "labels" ["heat)"] LegendExamples.cached_view,
      []), Raise AttributeError).
Proof.
  destruct (clear_legend_labels_uses_cache unit
              AxesExamples.get_legend_handles_labels (fun _ => ([], []))
              LegendExamples.cached_view [])
    as [Hsame _]; [by eexists | by eexists |].
  rewrite Hsame. vm_compute. reflexivity.
Defined.

Section PlotMethodFacts.

Import Plot PlotMethods.

Variable Results : Type.
Variable views_node : Results -> node -> result (gmap string DataFrame).
Variable get_legend_handles_labels : nat -> list string * list string.
Variable PlotKwargs : Type.
Variable DataFrame_plot : DataFrame -> PlotKwargs -> result nat.

(** [plot] on an object that is already at its node. *)
Lemma plot_unfold (node0 : option node) (original_xticks : bool)
    (kwargs : PlotKwargs) (self : ViewPlot Results) :
  plot views_node get_legend_handles_labels DataFrame_plot node0
    original_xticks kwargs self =
  match (match node0 with
         | Some n => update_node views_node n self
         | None => (self, Ok tt)
         end) with
  | (self1, Raise e) => (self1, Raise e)
  | (self1, Ok _) =>
    match DataFrame_plot (if original_xticks then subset self1
                          else reset_index (subset self1)) kwargs with
    | Raise e => (self1, Raise e)
    | Ok a =>
      (set_legend_kwarg "labels" (snd (get_legend_handles_labels a))
         (set_legend_kwarg "handles" (fst (get_legend_handles_labels a))
            (set_ax (Some a) self1)), Ok tt)
    end
  end.
Proof.
  unfold plot, mbind', modify, ret.
  destruct node0 as [n|].
  - destruct (update_node views_node n self) as [self1 [[]|e]]; [|reflexivity].
    destruct (DataFrame_plot _ kwargs); reflexivity.
  - destruct (DataFrame_plot _ kwargs); reflexivity.
Qed.

End PlotMethodFacts.

(** X15: when [plot] ends normally, the object holds the axis the table was
    plotted on, and [legend_kwargs] holds the handles and labels that axis
    reports, whatever was cached before.  The table plotted is the [subset]
    (of the node's sequences when a node is given), with its rows renumbered
    from zero when [original_xticks] is false; the [subset] itself keeps its
    index. *)
Theorem plot_caches_legend (Results PlotKwargs : Type)
    (views_node : Results -> node -> result (gmap string Plot.DataFrame))
    (get_legend_handles_labels : nat -> list string * list string)
    (DataFrame_plot : Plot.DataFrame -> PlotKwargs -> result nat)
    (node0 : option node) (original_xticks : bool) (kwargs : PlotKwargs)
    (self self' : Plot.ViewPlot Results) :
  PlotMethods.plot views_node get_legend_handles_labels DataFrame_plot node0
    original_xticks kwargs self = (self', Ok tt) ->
  exists a : nat,
    Plot.ax self' = Some a /\
    DataFrame_plot (if original_xticks then Plot.subset self'
                    else PlotMethods.reset_index (Plot.subset self')) kwargs
      = Ok a /\
    Plot.legend_kwargs self' !! "handles" =
      Some (fst (get_legend_handles_labels a)) /\
    Plot.legend_kwargs self' !! "labels" =
      Some (snd (get_legend_handles_labels a)) /\
    match node0 with
    | None => Plot.subset self' = Plot.subset self
    | Some n =>
      exists filtered,
        views_node (Plot.results self) n = Ok filtered /\
        filtered !! "sequences" = Some (Plot.subset self') /\
        Plot.node_ self' = Some n
    end.
Proof.
  rewrite plot_unfold. intros Hrun.
  destruct (match node0 with
            | Some n => Plot.update_node views_node n self
            | None => (self, Ok tt)
            end) as [self1 [[]|e]] eqn:Hnode; [|discriminate].
  destruct (DataFrame_plot _ kwargs) as [a|e] eqn:Ha; [|discriminate].
  injection Hrun as <-. exists a. simpl.
  split; [reflexivity|]. split; [exact Ha|].
  split; [by rewrite lookup_insert_ne, lookup_insert_eq|].
  split; [apply lookup_insert_eq|].
  destruct node0 as [n|].
  - unfold Plot.update_node in Hnode.
    destruct (views_node (Plot.results self) n) as [filtered|e]; simpl in Hnode;
      [|discriminate].
    destruct (filtered !! "sequences") as [sq|] eqn:Hsq; simpl in Hnode;
      [|discriminate].
    injection Hnode as <-. exists filtered. simpl. auto.
  - by injection Hnode as <-.
Qed.

Lemma plot_caches_legend_witness :
  exists (self' : Plot.ViewPlot unit) (a : nat),
    PlotMethods.plot PlotExamples.views_node
      AxesExamples.get_legend_handles_labels AxesExamples.DataFrame_plot
      (Some "genset") false tt PlotExamples.view = (self', Ok tt) /\
    Plot.ax self' = Some a /\
    Plot.legend_kwargs self' !! "labels" =
      Some ["((diesel, genset), flow)"; "((genset, electricity), flow)"] /\
    Plot.subset self' = PlotExamples.sequences.
Proof.
  destruct (PlotMethods.plot PlotExamples.views_node
              AxesExamples.get_legend_handles_labels AxesExamples.DataFrame_plot
              (Some "genset") false tt PlotExamples.view)
    as [self' [[]|e]] eqn:Hrun; [|vm_compute in Hrun; discriminate].
  destruct (plot_caches_legend unit unit _ _ _ _ _ _ _ _ Hrun)
    as (a & Hax & _ & _ & Hl & filtered & Hf & Hsq & _).
  exists self', a. split; [reflexivity|]. split; [exact Hax|].
  split; [exact Hl|].
  injection Hf as <-. rewrite lookup_singleton_eq in Hsq. by injection Hsq.
Defined.

(** X16: [plot] raises what [update_node] raises, leaving the object as it
    was, and raises what the plotting of the table raises; in the second
    case the object has already been switched to the node given, but keeps
    its former axis. *)
Theorem plot_failure (Results PlotKwargs : Type)
    (views_node : Results -> node -> result (gmap string Plot.DataFrame))
    (get_legend_handles_labels : nat -> list string * list string)
    (DataFrame_plot : Plot.DataFrame -> PlotKwargs -> result nat)
    (n : node) (original_xticks : bool) (kwargs : PlotKwargs)
    (self : Plot.ViewPlot Results) (e : exn) :
  (Plot.update_node views_node n self = (self, Raise e) ->
   PlotMethods.plot views_node get_legend_handles_labels DataFrame_plot
     (Some n) original_xticks kwargs self = (self, Raise e)) /\
  (forall self1,
     Plot.update_node views_node n self = (self1, Ok tt) ->
     DataFrame_plot (if original_xticks then Plot.subset self1
                     else PlotMethods.reset_index (Plot.subset self1)) kwargs
       = Raise e ->
     PlotMethods.plot views_node get_legend_handles_labels DataFrame_plot
       (Some n) original_xticks kwargs self = (self1, Raise e) /\
     Plot.node_ self1 = Some n /\ Plot.ax self1 = Plot.ax self).
Proof.
  split.
  - intros Hup. rewrite plot_unfold, Hup. reflexivity.
  - intros self1 Hup Hplot. rewrite plot_unfold, Hup, Hplot.
    split; [reflexivity|].
    unfold Plot.update_node in Hup.
    destruct (views_node (Plot.results self) n) as [filtered|e0]; simpl in Hup;
      [|discriminate].
    destruct (filtered !! "sequences") as [sq|]; simpl in Hup; [|discriminate].
    injection Hup as <-. split; reflexivity.
Qed.

(** X17: [slice_results] always cuts the rows out of [seq], never out of the
    current [subset]: what it leaves does not depend on the [subset] the
    object had, so a second slice is not a slice of the first, and an
    earlier rearrangement of the columns is lost. *)
Theorem slice_results_from_seq (Results : Type)
    (loc : Plot.DataFrame -> nat -> nat -> result Plot.DataFrame)
    (date_from date_to : option nat)
    (self self' : Plot.ViewPlot Results) (df : Plot.DataFrame) :
  PlotMethods.slice_results loc date_from date_to self = (self', Ok tt) ->
  PlotMethods.slice_results loc date_from date_to (Plot.set_subset df self) =
    (self', Ok tt) /\
  exists first_row last_row,
    loc (Plot.seq self) first_row last_row = Ok (Plot.subset self') /\
    Plot.seq self' = Plot.seq self.
Proof.
  unfold PlotMethods.slice_results. simpl.
  destruct (bind _ _) as [rows|e] eqn:Hrows; [|discriminate].
  intros [= <-]. split; [reflexivity|].
  unfold bind in Hrows.
  destruct (match date_from with
            | Some d => Ok d
            | None => Custom.first (Plot.index (Plot.seq self))
            end) as [a|]; [|discriminate].
  destruct (match date_to with
            | Some d => Ok d
            | None => PlotMethods.last_item (Plot.index (Plot.seq self))
            end) as [b|]; [|discriminate].
  exists a, b. split; [exact Hrows | reflexivity].
Qed.

Lemma slice_results_from_seq_witness :
  exists self' : Plot.ViewPlot unit,
    PlotMethods.slice_results AxesExamples.loc (Some 1%nat) None
      (Plot.set_subset Plot.empty_frame PlotExamples.genset_view) =
      (self', Ok tt) /\
    Plot.index (Plot.subset self') = [1%nat].
Proof.
  destruct (PlotMethods.slice_results AxesExamples.loc (Some 1%nat) None
              PlotExamples.genset_view) as [self' [[]|e]] eqn:Hrun;
    [|vm_compute in Hrun; discriminate].
  destruct (slice_results_from_seq unit AxesExamples.loc (Some 1%nat) None
              PlotExamples.genset_view self' Plot.empty_frame Hrun)
    as (Hsame & _).
  exists self'. split; [exact Hsame|].
  vm_compute in Hrun. injection Hrun as <-. reflexivity.
Defined.

(** X18: on an object whose [seq] has no rows, as before any node is set,
    [slice_results] with a bound left out raises [IndexError] and leaves the
    object as it was. *)
Theorem slice_results_without_rows (Results : Type)
    (loc : Plot.DataFrame -> nat -> nat -> result Plot.DataFrame)
    (date_from date_to : option nat) (self : Plot.ViewPlot Results) :
  Plot.index (Plot.seq self) = [] ->
  date_from = None \/ date_to = None ->
  PlotMethods.slice_results loc date_from date_to self = (self, Raise IndexError).
Proof.
  intros Hidx Hnone. unfold PlotMethods.slice_results, PlotMethods.last_item.
  rewrite Hidx. destruct date_from as [a|]; simpl.
  - destruct Hnone as [Hf|Ht]; [discriminate | rewrite Ht; reflexivity].
  - reflexivity.
Qed.

Lemma slice_results_without_rows_witness :
  PlotMethods.slice_results AxesExamples.loc None None PlotExamples.view =
    (PlotExamples.view, Raise IndexError).
Proof.
  apply slice_results_without_rows; [reflexivity | by left].
Defined.

Section TickFacts.

Import Plot PlotMethods.

(** [int(a / b)] of two whole numbers, [a] not negative and [b] positive,
    is the quotient of the division with remainder. *)
Lemma py_int_quotient (a b : Z) :
  (0 <= a)%Z -> (0 < b)%Z ->
  Custom.py_int (inject_Z a / inject_Z b)%Q = (a / b)%Z.
Proof.
  intros Ha Hb. destruct b as [|p|p]; try lia.
  unfold Custom.py_int, Qdiv, Qinv, Qmult, inject_Z. simpl.
  rewrite Z.mul_1_r. by apply Z.quot_div_nonneg.
Qed.

Lemma every_length {A : Type} (d : nat) (l : list A) :
  forall skip, (skip <= d)%nat ->
    length (every d skip l) = ((length l + d - skip) / S d)%nat.
Proof.
  induction l as [|x l IH]; intros skip Hskip; cbn [every length].
  - symmetry. apply Nat.div_small. lia.
  - destruct skip as [|k]; cbn [length].
    + rewrite IH by lia.
      replace (S (length l) + d - 0)%nat with ((length l + d - d) + 1 * S d)%nat
        by lia.
      rewrite Nat.div_add; lia.
    + rewrite IH by lia. reflexivity.
Qed.

Lemma every_lookup {A : Type} (d : nat) (l : list A) :
  forall skip j, every d skip l !! j = l !! (skip + j * S d)%nat.
Proof.
  induction l as [|x l IH]; intros skip j; simpl; [by rewrite !lookup_nil|].
  destruct skip as [|k].
  - destruct j as [|j]; simpl; [reflexivity|].
    rewrite IH. reflexivity.
  - rewrite IH. reflexivity.
Qed.


Variable Results : Type.
Variable get_xticks : nat -> list Q.
Variable strftime : string -> nat -> string.

(** [set_datetime_ticks] once the axis, a first tick and the distance are
    there. *)
Lemma set_datetime_ticks_unfold (tick_distance : option Z)
    (number_autoticks : Z) (date_format : string)
    (self : ViewPlot Results) (calls : list ax_call)
    (a : nat) (x : Q) (xs : list Q) (d x_last : Z) :
  ax self = Some a ->
  get_xticks a = x :: xs ->
  last_item (map Custom.py_int (x :: xs)) = Ok x_last ->
  match tick_distance with
  | Some d0 => Ok d0
  | None =>
    if (number_autoticks =? 0)%Z then Raise ZeroDivisionError
    else Ok (Custom.py_int
               (inject_Z (Z.of_nat (length (index (subset self))))
                / inject_Z number_autoticks)%Q - 1)%Z
  end = Ok d ->
  set_datetime_ticks get_xticks strftime tick_distance number_autoticks
    date_format (self, calls) =
  match py_range (Custom.py_int x) x_last d with
  | Raise e => ((self, calls), Raise e)
  | Ok ticks =>
    match slice_from_start (index (subset self)) d with
    | Raise e => ((self, (calls ++ [set_xticks a ticks])%list), Raise e)
    | Ok shown =>
      ((self, ((calls ++ [set_xticks a ticks])
               ++ [set_xticklabels a (map (strftime date_format) shown)])%list),
       Ok tt)
    end
  end.
Proof.
  intros Hax Hx Hlast Hd. unfold set_datetime_ticks, getattr_ax.
  rewrite Hax. cbn [bind]. rewrite Hx, Hd. cbn [bind].
  cbn [map Custom.first]. cbn [map] in Hlast. rewrite Hlast. cbn [bind].
  destruct (py_range (Custom.py_int x) x_last d) as [ticks|e]; reflexivity.
Qed.

Lemma last_item_cons {A : Type} (x : A) (l : list A) :
  exists y, last_item (x :: l) = Ok y.
Proof.
  unfold last_item. destruct (rev (x :: l)) as [|y r] eqn:Hr; [|eauto].
  apply (f_equal (@length A)) in Hr. rewrite length_rev in Hr. discriminate.
Qed.

End TickFacts.

(** X19: with the tick distance left to the method, a table that has at
    least [number_autoticks] rows but fewer than twice as many gets the
    distance [int(len / number_autoticks) - 1 = 0]: [range] refuses the zero
    step, [set_datetime_ticks] raises [ValueError], and nothing is set on the
    axis. *)
Theorem set_datetime_ticks_too_few_dates (Results : Type)
    (get_xticks : nat -> list Q) (strftime : string -> nat -> string)
    (number_autoticks : Z) (date_format : string)
    (self : Plot.ViewPlot Results) (calls : list PlotMethods.ax_call)
    (a : nat) :
  Plot.ax self = Some a ->
  get_xticks a <> [] ->
  (0 < number_autoticks)%Z ->
  (number_autoticks <= Z.of_nat (length (Plot.index (Plot.subset self))))%Z ->
  (Z.of_nat (length (Plot.index (Plot.subset self))) < 2 * number_autoticks)%Z ->
  PlotMethods.set_datetime_ticks get_xticks strftime None number_autoticks
    date_format (self, calls) =
    ((self, calls), Raise (ValueError ["range() arg 3 must not be zero"])).
Proof.
  intros Hax Hx Hk Hlo Hhi.
  destruct (get_xticks a) as [|x xs] eqn:Hxs; [done|].
  destruct (last_item_cons (Custom.py_int x) (map Custom.py_int xs))
    as [x_last Hlast].
  rewrite (set_datetime_ticks_unfold Results get_xticks strftime None
             number_autoticks date_format self calls a x xs 0 x_last Hax Hxs Hlast).
  - reflexivity.
  - replace (number_autoticks =? 0)%Z with false by lia.
    rewrite py_int_quotient by lia. f_equal.
    assert (Z.of_nat (length (Plot.index (Plot.subset self)))
            / number_autoticks = 1)%Z; [|lia].
    symmetry. apply (Z.div_unique _ _ 1
      (Z.of_nat (length (Plot.index (Plot.subset self))) - number_autoticks));
      lia.
Qed.

Lemma set_datetime_ticks_too_few_dates_witness :
  PlotMethods.set_datetime_ticks AxesExamples.get_xticks AxesExamples.strftime
    None 3 "%d-%m-%Y %H:%M" (AxesExamples.short_view, []) =
    ((AxesExamples.short_view, []),
     Raise (ValueError ["range() arg 3 must not be zero"])).
Proof.
  apply (set_datetime_ticks_too_few_dates unit AxesExamples.get_xticks
           AxesExamples.strftime 3 "%d-%m-%Y %H:%M" AxesExamples.short_view []
           1%nat); try reflexivity; try discriminate; simpl; lia.
Defined.

(** X20: with the tick distance left to the method and at least twice
    [number_autoticks] rows, the method ends normally, sets tick positions
    and then tick labels on the axis, and the labels are every [d]-th date
    from the first, for [d = int(len / number_autoticks) - 1]; there are
    more of them than [number_autoticks]. *)
Theorem set_datetime_ticks_auto_labels (Results : Type)
    (get_xticks : nat -> list Q) (strftime : string -> nat -> string)
    (number_autoticks : Z) (date_format : string)
    (self : Plot.ViewPlot Results) (calls : list PlotMethods.ax_call)
    (a : nat) :
  Plot.ax self = Some a ->
  get_xticks a <> [] ->
  (0 < number_autoticks)%Z ->
  (2 * number_autoticks <= Z.of_nat (length (Plot.index (Plot.subset self))))%Z ->
  exists (ticks : list Z) (shown : list nat),
    PlotMethods.set_datetime_ticks get_xticks strftime None number_autoticks
      date_format (self, calls) =
      ((self, (calls ++ [PlotMethods.set_xticks a ticks;
                         PlotMethods.set_xticklabels a
                           (map (strftime date_format) shown)])%list), Ok tt) /\
    (forall j, shown !! j =
       Plot.index (Plot.subset self) !!
         (j * Z.to_nat (Z.of_nat (length (Plot.index (Plot.subset self)))
                        / number_autoticks - 1))%nat) /\
    (Z.to_nat number_autoticks < length shown)%nat.
Proof.
  intros Hax Hx Hk Hlen.
  set (dates := Plot.index (Plot.subset self)) in *.
  set (L := Z.of_nat (length dates)) in *.
  set (d := (L / number_autoticks - 1)%Z).
  assert (Hq : (2 <= L / number_autoticks)%Z)
    by (apply Z.div_le_lower_bound; lia).
  assert (Hd : (1 <= d)%Z) by (unfold d; lia).
  assert (Hkd : (number_autoticks * d < L)%Z).
  { unfold d. pose proof (Z.mul_div_le L number_autoticks Hk). nia. }
  destruct (get_xticks a) as [|x xs] eqn:Hxs; [done|].
  destruct (last_item_cons (Custom.py_int x) (map Custom.py_int xs))
    as [x_last Hlast].
  rewrite (set_datetime_ticks_unfold Results get_xticks strftime None
             number_autoticks date_format self calls a x xs d x_last Hax Hxs Hlast).
  2:{ replace (number_autoticks =? 0)%Z with false by lia.
      fold dates. fold L. rewrite py_int_quotient by lia. reflexivity. }
  unfold PlotMethods.py_range, PlotMethods.slice_from_start. fold dates.
  replace (d =? 0)%Z with false by lia.
  replace (0 <? d)%Z with true by lia.
  eexists _, _. split; [by rewrite <- app_assoc|]. split.
  - intros j. rewrite every_lookup. simpl. f_equal.
    replace (S (Z.to_nat d - 1)) with (Z.to_nat d) by lia. reflexivity.
  - rewrite every_length by lia.
    replace (S (Z.to_nat d - 1)) with (Z.to_nat d) by lia.
    apply Nat.div_le_lower_bound; [lia|].
    assert (Z.to_nat number_autoticks * Z.to_nat d < length dates)%nat.
    { apply Nat2Z.inj_lt. rewrite Nat2Z.inj_mul, !Z2Nat.id by lia. exact Hkd. }
    nia.
Qed.

Lemma set_datetime_ticks_auto_labels_witness :
  exists (ticks : list Z) (shown : list nat),
    PlotMethods.set_datetime_ticks AxesExamples.get_xticks AxesExamples.strftime
      None 3 "%d-%m-%Y %H:%M" (AxesExamples.long_view, []) =
      ((AxesExamples.long_view,
        [PlotMethods.set_xticks 1 ticks;
         PlotMethods.set_xticklabels 1
           (map (AxesExamples.strftime "%d-%m-%Y %H:%M") shown)]), Ok tt) /\
    (3 < length shown)%nat.
Proof.
  destruct (set_datetime_ticks_auto_labels unit AxesExamples.get_xticks
              AxesExamples.strftime 3 "%d-%m-%Y %H:%M" AxesExamples.long_view
              [] 1%nat) as (ticks & shown & Hrun & _ & Hmore);
    try reflexivity; try discriminate; try (simpl; lia).
  exists ticks, shown. split; [exact Hrun | exact Hmore].
Defined.



Lemma delete_legend_cache_twice (m : gmap string (list string)) :
  delete "handles" (delete "labels" (delete "handles" (delete "labels" m))) =
  delete "handles" (delete "labels" m).
Proof.
  apply map_eq. intros k. rewrite !lookup_delete.
  repeat case_decide; done.
Qed.

(** X22: [update_node] starts afresh from the results: after a switch to a
    node, switching to another node gives the same object as switching to
    that node directly, so nothing of the first node remains; in particular
    switching to the same node twice is the same as once. *)
Theorem update_node_forgets_previous (Results : Type)
    (views_node : Results -> node -> result (gmap string Plot.DataFrame))
    (first_node second_node : node)
    (self self1 self2 : Plot.ViewPlot Results) :
  Plot.update_node views_node first_node self = (self1, Ok tt) ->
  Plot.update_node views_node second_node self = (self2, Ok tt) ->
  Plot.update_node views_node second_node self1 = (self2, Ok tt).
Proof.
  unfold Plot.update_node. intros H1 H2.
  destruct (bind (views_node (Plot.results self) first_node) _) as [sq1|];
    [|discriminate].
  injection H1 as <-. simpl.
  destruct (bind (views_node (Plot.results self) second_node) _) as [sq2|];
    [|discriminate].
  injection H2 as <-. rewrite delete_legend_cache_twice. reflexivity.
Qed.

Lemma update_node_forgets_previous_witness :
  exists self1 self2 : Plot.ViewPlot unit,
    Plot.update_node PlotExamples.views_node "diesel" PlotExamples.view =
      (self1, Ok tt) /\
    Plot.update_node PlotExamples.views_node "genset" self1 = (self2, Ok tt) /\
    Plot.in_cols self2 = Some [PlotExamples.inflow].
Proof.
  destruct (Plot.update_node PlotExamples.views_node "diesel" PlotExamples.view)
    as [self1 [[]|e]] eqn:H1; [|vm_compute in H1; discriminate].
  destruct (Plot.update_node PlotExamples.views_node "genset" PlotExamples.view)
    as [self2 [[]|e]] eqn:H2; [|vm_compute in H2; discriminate].
  exists self1, self2. split; [reflexivity|]. split.
  - exact (update_node_forgets_previous unit PlotExamples.views_node
             "diesel" "genset" PlotExamples.view self1 self2 H1 H2).
  - vm_compute in H2. injection H2 as <-. vm_compute. reflexivity.
Defined.

(** X23: when [views.node] raises, or returns a dictionary without the key
    ['sequences'], [update_node] raises that exception, respectively
    [KeyError], and leaves every attribute of the object as it was. *)
Theorem update_node_failure (Results : Type)
    (views_node : Results -> node -> result (gmap string Plot.DataFrame))
    (node0 : node) (self : Plot.ViewPlot Results) :
  (forall e, views_node (Plot.results self) node0 = Raise e ->
     Plot.update_node views_node node0 self = (self, Raise e)) /\
  (forall filtered, views_node (Plot.results self) node0 = Ok filtered ->
     filtered !! "sequences" = None ->
     Plot.update_node views_node node0 self = (self, Raise KeyError)).
Proof.
  unfold Plot.update_node. split.
  - intros e ->. reflexivity.
  - intros filtered -> Hnone. simpl. rewrite Hnone. reflexivity.
Qed.


Section RearrangeFacts.

Import Plot.

Lemma flat_map_ext_In {A B : Type} (f g : A -> list B) (l : list A) :
  (forall x, In x l -> f x = g x) -> flat_map f l = flat_map g l.
Proof.
  induction l as [|x l IH]; intros Hfg; simpl; [reflexivity|].
  rewrite (Hfg x) by (by left). f_equal. apply IH. intros y Hy.
  apply Hfg. by right.
Qed.

(** Selecting the labels of a table with distinct labels, in the table's
    order, gives back its columns. *)
Lemma select_own_columns (ss : list (col * list Q)) :
  NoDup (map fst ss) ->
  flat_map (fun l => filter (fun s : col * list Q => fst s = l) ss)
    (map fst ss) = ss.
Proof.
  induction ss as [|[c d] ss IH]; intros Hnd; [reflexivity|].
  simpl in Hnd. apply NoDup_cons in Hnd as [Hc Hnd].
  cbn [map flat_map fst].
  rewrite filter_cons_True by reflexivity.
  rewrite filter_label_absent by exact Hc. simpl. f_equal.
  rewrite <- (IH Hnd) at 2. apply flat_map_ext_In. intros l Hl.
  apply filter_cons_False. simpl. intros ->.
  apply Hc. by apply list_elem_of_In.
Qed.

Lemma filter_ext_In {A : Type} (P Q : A -> Prop)
    `{!forall x, Decision (P x)} `{!forall x, Decision (Q x)} (l : list A) :
  (forall x, x ∈ l -> P x <-> Q x) -> filter P l = filter Q l.
Proof.
  induction l as [|x l IH]; intros HPQ; [reflexivity|].
  rewrite !filter_cons. destruct (decide (P x)) as [HP|HP].
  - rewrite decide_True by (apply HPQ; [by left | done]).
    f_equal. apply IH. intros y Hy. apply HPQ. by right.
  - rewrite decide_False by (rewrite <- HPQ; [done | by left]).
    apply IH. intros y Hy. apply HPQ. by right.
Qed.

End RearrangeFacts.

(** X24: rearranging the subset twice with the same order is the same as
    once, for an order list without repetitions and a subset with distinct
    column labels: the second call returns the same table, leaves the object
    as it is and logs nothing. *)
Theorem rearrange_subset_idempotent (Results : Type)
    (self self1 : Plot.ViewPlot Results) (log log1 : list Plot.log_record)
    (order : list (list (option node) * string)) (sub : Plot.DataFrame) :
  NoDup order ->
  NoDup (Plot.columns (Plot.subset self)) ->
  Plot.rearrange_subset order None (self, log) = ((self1, log1), Ok sub) ->
  Plot.rearrange_subset order None (self1, log1) = ((self1, log1), Ok sub).
Proof.
  intros Horder Hcols Hrun.
  set (table := Plot.subset self) in *.
  set (neworder := filter (fun x => x ∈ Plot.columns table) order).
  assert (Hsel : Plot.select table neworder =
    Ok {| Plot.index := Plot.index table;
          Plot.series := flat_map
            (fun l => filter (fun s : _ * list Q => fst s = l) (Plot.series table))
            neworder |}).
  { apply select_series. intros l Hl.
    by apply list_elem_of_filter in Hl as [Hl _]. }
  unfold Plot.rearrange_subset in Hrun. fold table in Hrun.
  fold neworder in Hrun. rewrite Hsel in Hrun.
  injection Hrun as <- <- <-.
  assert (Hcols1 : Plot.columns
    {| Plot.index := Plot.index table;
       Plot.series := flat_map
         (fun l => filter (fun s : _ * list Q => fst s = l) (Plot.series table))
         neworder |} = neworder).
  { unfold Plot.columns at 1. simpl.
    apply columns_select_distinct; [exact Hcols|].
    intros l Hl. by apply list_elem_of_filter in Hl as [Hl _]. }
  unfold Plot.rearrange_subset. cbn [Plot.subset Plot.set_subset].
  rewrite Hcols1.
  assert (Hnew : filter (fun x => x ∈ neworder) order = neworder).
  { apply filter_ext_In. intros x Hx. unfold neworder.
    rewrite list_elem_of_filter. tauto. }
  assert (Hmiss : filter (fun x => x ∉ order) neworder = []).
  { apply elem_of_nil_inv. intros x Hx.
    apply list_elem_of_filter in Hx as [Hno Hin].
    apply list_elem_of_filter in Hin as [_ Hin]. contradiction. }
  rewrite Hnew, Hmiss. cbn [length Nat.ltb Nat.leb].
  assert (Hnd : NoDup neworder) by (by apply NoDup_filter).
  assert (Hsel1 : Plot.select
    {| Plot.index := Plot.index table;
       Plot.series := flat_map
         (fun l => filter (fun s : _ * list Q => fst s = l) (Plot.series table))
         neworder |} neworder =
    Ok {| Plot.index := Plot.index table;
          Plot.series := flat_map
            (fun l => filter (fun s : _ * list Q => fst s = l) (Plot.series table))
            neworder |}).
  { rewrite select_series by (intros l Hl; by rewrite Hcols1).
    cbn [Plot.index Plot.series]. do 2 f_equal.
    unfold Plot.columns in Hcols1. cbn [Plot.series] in Hcols1.
    remember (flat_map
      (fun l => filter (fun s : _ * list Q => fst s = l) (Plot.series table))
      neworder) as ss eqn:Hss.
    rewrite <- Hcols1. apply select_own_columns. by rewrite Hcols1. }
  rewrite Hsel1. reflexivity.
Qed.

Lemma rearrange_subset_idempotent_witness :
  exists (sub : Plot.DataFrame) (self1 : Plot.ViewPlot unit)
         (log1 : list Plot.log_record),
    Plot.rearrange_subset [PlotExamples.outflow; PlotExamples.inflow] None
      (PlotExamples.genset_view, []) = ((self1, log1), Ok sub) /\
    Plot.rearrange_subset [PlotExamples.outflow; PlotExamples.inflow] None
      (self1, log1) = ((self1, log1), Ok sub) /\
    length log1 = 1%nat.
Proof.
  destruct (Plot.rearrange_subset [PlotExamples.outflow; PlotExamples.inflow]
              None (PlotExamples.genset_view, []))
    as [[self1 log1] [sub|e]] eqn:Hrun; [|vm_compute in Hrun; discriminate].
  exists sub, self1, log1. split; [reflexivity|]. split.
  - apply (rearrange_subset_idempotent unit PlotExamples.genset_view self1
             [] log1 [PlotExamples.outflow; PlotExamples.inflow] sub);
      [| |exact Hrun].
    + repeat constructor; rewrite ?elem_of_cons, ?elem_of_nil;
        intuition discriminate.
    + vm_compute. repeat constructor; rewrite ?elem_of_cons, ?elem_of_nil;
        intuition discriminate.
  - vm_compute in Hrun. injection Hrun as <- <- <-. reflexivity.
Defined.

(** X25: a [ViewPlot] can be made for a node exactly when [views.node] has
    sequences for it; the new object is then at that node, with those
    sequences as [seq] and [subset], the columns split by direction, the axis
    given and an empty [legend_kwargs]. *)
Theorem viewplot_init_with_node (Results : Type)
    (views_node : Results -> node -> result (gmap string Plot.DataFrame))
    (results0 : Results) (node0 : node) (ax0 : option nat)
    (self : Plot.ViewPlot Results) :
  PlotMethods.__init__ views_node results0 (Some node0) ax0 = Ok self <->
  exists filtered sequences,
    views_node results0 node0 = Ok filtered /\
    filtered !! "sequences" = Some sequences /\
    self = {| Plot.results := results0;
              Plot.seq := sequences;
              Plot.subset := sequences;
              Plot.in_cols :=
                Some (filter (Plot.has_target node0) (Plot.columns sequences));
              Plot.out_cols :=
                Some (filter (Plot.has_source node0) (Plot.columns sequences));
              Plot.node_ := Some node0;
              Plot.ax := ax0;
              Plot.legend_kwargs := ∅ |}.
Proof.
  unfold PlotMethods.__init__, Plot.update_node. simpl.
  destruct (views_node results0 node0) as [filtered|e]; simpl.
  - destruct (filtered !! "sequences") as [sq|] eqn:Hsq; simpl.
    + rewrite !delete_empty.
      rewrite (list_filter_iff
                 (fun c => Plot.flow_entry_is 1 node0 c = true)
                 (Plot.has_target node0))
        by (intros c; apply flow_entry_is_target).
      rewrite (list_filter_iff
                 (fun c => Plot.flow_entry_is 0 node0 c = true)
                 (Plot.has_source node0))
        by (intros c; apply flow_entry_is_source).
      split.
      * intros [= <-]. exists filtered, sq. auto.
      * intros (f & sq' & [= <-] & Hsq' & ->).
        rewrite Hsq in Hsq'. by injection Hsq' as <-.
    + split; [discriminate|].
      intros (f & sq' & [= <-] & Hsq' & _). congruence.
  - split; [discriminate|]. intros (f & sq' & [=] & _).
Qed.

(** X26: the closing lines of [io_plot] reorder handles and labels by the
    same rule: the entries after the first [separator] come first, in
    reverse, and the first [separator] entries follow in their order; no
    entry is lost or repeated. *)
Theorem io_plot_legend_order_spec (handles labels : list string)
    (separator : nat) :
  PlotMethods.io_plot_legend_order handles labels separator =
    ((rev (drop separator handles) ++ take separator handles)%list,
     (rev (drop separator labels) ++ take separator labels)%list) /\
  fst (PlotMethods.io_plot_legend_order handles labels separator) ≡ₚ handles /\
  snd (PlotMethods.io_plot_legend_order handles labels separator) ≡ₚ labels.
Proof.
  assert (E : forall l : list string,
    rev (rev (take separator l) ++ drop separator l) =
    (rev (drop separator l) ++ take separator l)%list).
  { intros l. by rewrite rev_app_distr, rev_involutive. }
  unfold PlotMethods.io_plot_legend_order. cbn [fst snd]. rewrite !E.
  split; [reflexivity|].
  assert (P : forall l : list string,
    (rev (drop separator l) ++ take separator l)%list ≡ₚ l).
  { intros l. rewrite <- (take_drop separator l) at 3.
    rewrite Permutation_app_comm. f_equiv.
    symmetry. apply Permutation_rev. }
  split; apply P.
Qed.
